(** * Panel ingestion of the synthetic control estimator (synth/main.py)

    A shallow embedding of [Synth._process_input_data],
    [Synth._process_treated_data], [Synth._process_control_data],
    [Synth.__init__] and [Synth.transform_data], together with the pandas and
    numpy operations these methods call, and the properties of the
    specification that can be settled on them. *)

From Stdlib Require Import ZArith QArith Lia.
From stdpp Require Import base decidable option list sorting strings gmap.

Local Open Scope string_scope.
Local Open Scope list_scope.
Local Open Scope Z_scope.

(** ** Numbers

    The cells of the outcome and predictor columns are float64 in the source.
    The development is parametric in the carrier and its operations and
    assumes no algebraic law about them, so every statement holds for
    IEEE-754 doubles as well as for the exact instance used in the examples. *)

Class FloatOps (F : Type) := {
  F_zero : F;
  F_nan : F;
  F_isnan : F → bool;
  F_add : F → F → F;
  F_sub : F → F → F;
  F_div : F → F → F;
  F_eqb : F → F → bool;
  F_of_Z : Z → F
}.

(** ** Text

    A reduction of pandas that meets a column of strings adds the strings up
    and attempts to convert the text to a number. The development is
    parametric in whether that conversion accepts a text. *)

Class TextOps := {
  numeric_text : string → bool
}.

(** ** Exceptions and results *)

(** A KeyError carries the key that was looked up, or a message that
    names the missing labels. *)
Inductive exn :=
  | KeyError (key : string)
  | ValueError
  | TypeError
  | IndexingError
  | NameError (name : string).

Inductive result (A : Type) :=
  | Ok (a : A)
  | Err (e : exn).
Arguments Ok {A} a.
Arguments Err {A} e.

Definition rbind {A B} (r : result A) (k : A → result B) : result B :=
  match r with
  | Ok a => k a
  | Err e => Err e
  end.

Fixpoint mapR {A B} (f : A → result B) (l : list A) : result (list B) :=
  match l with
  | [] => Ok []
  | x :: l' => rbind (f x) (λ y, rbind (mapR f l') (λ ys, Ok (y :: ys)))
  end.

(** ** Generic list operations behind the pandas and numpy calls *)

(** Positional selection by a boolean array. *)
Fixpoint filter_by {A} (mask : list bool) (l : list A) : list A :=
  match mask, l with
  | b :: mask', x :: l' => if b then x :: filter_by mask' l' else filter_by mask' l'
  | _, _ => []
  end.

(** Distinct values in order of first appearance (the hash-table pass of
    [Series.unique]). *)
Fixpoint unique_acc {A} `{EqDecision A} (seen : list A) (l : list A) : list A :=
  match l with
  | [] => seen
  | x :: l' => if decide (x ∈ seen) then unique_acc seen l' else unique_acc (seen ++ [x]) l'
  end.

Definition unique {A} `{EqDecision A} (l : list A) : list A := unique_acc [] l.

(** [r] consecutive rows of [c] elements each (C order). *)
Fixpoint chunk {A} (c r : nat) (a : list A) : list (list A) :=
  match r with
  | O => []
  | S r' => take c a :: chunk c r' (drop c a)
  end.

(** Columns of a list of rows, for rows of [ncols] elements. *)
Fixpoint transpose {A} (ncols : nat) (rows : list (list A)) : list (list A) :=
  match ncols with
  | O => []
  | S k => (rows ≫= take 1) :: transpose k (drop 1 <$> rows)
  end.

(** First binding of a label in an association list. *)
Fixpoint assoc {K V} `{EqDecision K} (k : K) (l : list (K * V)) : option V :=
  match l with
  | [] => None
  | (k', v) :: l' => if decide (k = k') then Some v else assoc k l'
  end.

Definition arange (n : nat) : list Z := Z.of_nat <$> seq 0 n.

(** The text Python prints for a list of strings that hold no quote and no
    character to escape. *)
Definition py_list_repr (l : list string) : string :=
  let quoted := (λ s, String.append "'" (String.append s "'")) <$> l in
  String.append "[" (String.append (String.concat ", " quoted) "]").

(** The cells of a column in unit-major, time-minor order: [f u t] for
    every unit [u] in turn and, within it, every period [t] in turn. *)
Definition cells {U P A} (us : list U) (ts : list P) (f : U → P → A) : list A :=
  us ≫= λ u, f u <$> ts.

(** ** Computations over a shared object

    A method that holds a reference to an object of type [S] is a function
    of the object's current value, returning its value afterwards and a
    result or an exception. *)

Definition M (S A : Type) : Type := S → S * result A.

Definition ret {S A} (a : A) : M S A := λ s, (s, Ok a).

Definition bind {S A B} (m : M S A) (k : A → M S B) : M S B :=
  λ s, match m s with
       | (s', Ok a) => k a s'
       | (s', Err e) => (s', Err e)
       end.

Definition lift {S A} (r : result A) : M S A := λ s, (s, r).

Declare Scope py_scope.
Delimit Scope py_scope with py.
Notation "x <- m ;; k" := (bind m (λ x, k))
  (at level 100, m at next level, right associativity) : py_scope.
Notation "x <~ r ;; k" := (rbind r (λ x, k))
  (at level 100, r at next level, right associativity) : py_scope.

Section Model.
Local Open Scope py_scope.
Context {F : Type} `{FloatOps F} `{TextOps}.

(** ** numpy arrays

    A two-dimensional array is its shape and its rows in C order; the shape
    is kept apart because a dimension can be zero. *)

Record ndarray := { shape : nat * nat; rows : list (list F) }.

(** [a.reshape(r, c)] for a one-dimensional [a]. A negative dimension is
    the unknown one: it is inferred from the size, which must be a multiple
    of the known dimension; two unknown dimensions, or known dimensions
    whose product is not the size, raise ValueError. *)
Definition reshape (a : list F) (r c : Z) : result ndarray :=
  let size := Z.of_nat (length a) in
  if bool_decide (r < 0) then
    if bool_decide (c < 0) then Err ValueError
    else if bool_decide (c = 0 ∨ size mod c ≠ 0) then Err ValueError
    else Ok {| shape := (Z.to_nat (size / c), Z.to_nat c);
               rows := chunk (Z.to_nat c) (Z.to_nat (size / c)) a |}
  else if bool_decide (c < 0) then
    if bool_decide (r = 0 ∨ size mod r ≠ 0) then Err ValueError
    else Ok {| shape := (Z.to_nat r, Z.to_nat (size / r));
               rows := chunk (Z.to_nat (size / r)) (Z.to_nat r) a |}
  else if bool_decide (size = r * c) then
    Ok {| shape := (Z.to_nat r, Z.to_nat c);
          rows := chunk (Z.to_nat c) (Z.to_nat r) a |}
  else Err ValueError.

(** [m.T] *)
Definition T (m : ndarray) : ndarray :=
  {| shape := (snd (shape m), fst (shape m));
     rows := transpose (snd (shape m)) (rows m) |}.

(** ** pandas frames

    A column has a dtype. The constructor's docstring fixes the ID column
    to strings and the Time column to integers; the outcome and the
    predictors are numeric. An operation of the source applied to a column
    of another dtype raises TypeError in this model. Row labels are
    integers, column labels are strings; the lookup of a single label
    takes the first column with that label. *)

Inductive column :=
  | StrCol (l : list string)
  | IntCol (l : list Z)
  | NumCol (l : list F).

Record Series := { s_index : list Z; s_values : column }.
Record BoolSeries := { b_index : list Z; b_values : list bool }.
Record DataFrame := { index : list Z; columns : list (string * column) }.

Definition column_filter (mask : list bool) (c : column) : column :=
  match c with
  | StrCol l => StrCol (filter_by mask l)
  | IntCol l => IntCol (filter_by mask l)
  | NumCol l => NumCol (filter_by mask l)
  end.

(** [df[label]] *)
Definition getitem (df : DataFrame) (label : string) : result Series :=
  match assoc label (columns df) with
  | Some c => Ok {| s_index := index df; s_values := c |}
  | None => Err (KeyError label)
  end.

(** [df[labels]] for a list of labels: label by label, every column that
    carries the label. Labels that the frame does not have raise a KeyError
    that names them. *)
Definition getitem_list (df : DataFrame) (labels : list string) : result DataFrame :=
  let missing := filter (λ l, l ∉ fst <$> columns df) labels in
  if decide (missing = []) then
    Ok {| index := index df;
          columns := labels ≫= λ l, filter (λ lc, lc.1 = l) (columns df) |}
  else if decide (missing = labels) then
    Err (KeyError (String.append "None of [Index("
                    (String.append (py_list_repr labels)
                       ", dtype='object')] are in the [columns]")))
  else Err (KeyError (String.append (py_list_repr (unique missing)) " not in index")).

(** [series == value] against a string *)
Definition series_eq (s : Series) (v : string) : result BoolSeries :=
  match s_values s with
  | StrCol l => Ok {| b_index := s_index s; b_values := (λ x, bool_decide (x = v)) <$> l |}
  | _ => Err TypeError
  end.

(** [series != value] against a string *)
Definition series_ne (s : Series) (v : string) : result BoolSeries :=
  match s_values s with
  | StrCol l => Ok {| b_index := s_index s; b_values := (λ x, bool_decide (x ≠ v)) <$> l |}
  | _ => Err TypeError
  end.

(** [series < value] against an integer *)
Definition series_lt (s : Series) (v : Z) : result BoolSeries :=
  match s_values s with
  | IntCol l => Ok {| b_index := s_index s; b_values := (λ x, bool_decide (x < v)) <$> l |}
  | _ => Err TypeError
  end.

(** Alignment of a boolean key with the row labels of the frame it
    indexes: a key carrying the frame's own index is used as it is,
    another one is reindexed label by label, and a label it does not have
    raises IndexingError. *)
Definition check_bool_indexer (idx : list Z) (key : BoolSeries) : result (list bool) :=
  if decide (b_index key = idx) then Ok (b_values key)
  else mapR (λ l, match assoc l (zip (b_index key) (b_values key)) with
                  | Some b => Ok b
                  | None => Err IndexingError
                  end) idx.

(** [df[key]] and [df.loc[key]] for a boolean Series [key] *)
Definition getitem_bool (df : DataFrame) (key : BoolSeries) : result DataFrame :=
  rbind (check_bool_indexer (index df) key)
        (λ mask, Ok {| index := filter_by mask (index df);
                       columns := (λ '(l, c), (l, column_filter mask c)) <$> columns df |}).

(** [series.nunique()] *)
Definition nunique (s : Series) : result Z :=
  match s_values s with
  | StrCol l => Ok (Z.of_nat (length (unique l)))
  | IntCol l => Ok (Z.of_nat (length (unique l)))
  | NumCol _ => Err TypeError
  end.

(** [np.array(series)] of a numeric column *)
Definition np_array (c : column) : result (list F) :=
  match c with
  | NumCol l => Ok l
  | IntCol l => Ok (F_of_Z <$> l)
  | StrCol _ => Err TypeError
  end.

Definition F_sum (l : list F) : F := foldr F_add F_zero l.

(** The mean of pandas (skipna): missing values count as zero in the sum
    and are left out of the count; no value at all gives NaN. *)
Definition mean (l : list F) : F :=
  let count := length (List.filter (λ x, negb (F_isnan x)) l) in
  if decide (count = 0%nat) then F_nan
  else F_div (F_sum ((λ x, if F_isnan x then F_zero else x) <$> l))
             (F_of_Z (Z.of_nat count)).

(** [np.array(df.mean(axis=0))] *)
Definition mean_axis0 (df : DataFrame) : result (list F) :=
  mapR (λ '(_, c), rbind (np_array c) (λ l, Ok (mean l))) (columns df).

(** [df.set_index(labels)] for an array of labels *)
Definition set_index (df : DataFrame) (labels : list Z) : result DataFrame :=
  if decide (length labels = length (index df))
  then Ok {| index := labels; columns := columns df |}
  else Err ValueError.

(** [df.mean(level=0)]: one row per distinct row label, in order of first
    appearance, holding the mean of each column over the rows with that
    label. A frame without columns gives the distinct row labels and no
    column. *)
Definition mean_level0 (df : DataFrame) : result DataFrame :=
  let groups := unique (index df) in
  rbind (mapR (λ '(l, c), rbind (np_array c) (λ v,
           Ok (l, NumCol ((λ g, mean (filter_by ((λ i, bool_decide (i = g)) <$> index df) v))
                          <$> groups))))
              (columns df))
        (λ cols, Ok {| index := groups; columns := cols |}).

(** [np.array(df)] *)
Definition np_array_frame (df : DataFrame) : result ndarray :=
  rbind (mapR (λ '(_, c), np_array c) (columns df))
        (λ cols, Ok {| shape := (length (index df), length cols);
                       rows := transpose (length (index df)) cols |}).

(** ** The caller's dataset

    Every method receives [dataset] by reference: the object belongs to
    the caller and the estimator keeps a reference to it ([self.dataset]).
    The methods are therefore computations over that one shared object;
    the frames they derive from it are fresh values. *)

(** Dereference of the parameter [dataset]. *)
Definition dataset : M DataFrame DataFrame := λ d, (d, Ok d).

(** The dictionary returned by [_process_input_data]; its entry
    ['dataset'] is the reference to the caller's object and is held by the
    state of [M]. *)
Record checked_input := {
  outcome_var : string;
  id_var : string;
  time_var : string;
  treatment_period : Z;
  treated_unit : string;
  covariates : list string;
  periods_all : Z;
  periods_pre_treatment : Z;
  n_controls : Z;
  n_covariates : Z;
  treated_outcome_all : ndarray;
  treated_outcome : ndarray;
  treated_covariates : ndarray;
  control_outcome_all : ndarray;
  control_outcome : ndarray;
  control_covariates : ndarray
}.

(** The attributes set by [SynthBase.__init__]. *)
Record SynthBase := {
  self_input : checked_input;
  self_w : option ndarray;
  self_v : option ndarray;
  self_fail_count : Z;
  self_treatment_effect : option F
}.

Definition _process_treated_data (outcome_var id_var time_var : string)
    (treatment_period : Z) (treated_unit : string)
    (periods_all periods_pre_treatment : Z) (covariates : list string)
    (n_covariates : Z) : M DataFrame (ndarray * ndarray * ndarray) :=
  treated_data_all <-
    (d <- dataset ;;
     lift (ids <~ getitem d id_var ;;
           key <~ series_eq ids treated_unit ;;
           getitem_bool d key)) ;;
  treated_outcome_all <-
    lift (y <~ getitem treated_data_all outcome_var ;;
          a <~ np_array (s_values y) ;;
          reshape a periods_all 1) ;;
  treated_data <-
    (d <- dataset ;;
     lift (t <~ getitem d time_var ;;
           key <~ series_lt t treatment_period ;;
           getitem_bool treated_data_all key)) ;;
  treated_outcome <-
    lift (y <~ getitem treated_data outcome_var ;;
          a <~ np_array (s_values y) ;;
          reshape a periods_pre_treatment 1) ;;
  treated_covariates <-
    lift (x <~ getitem_list treated_data covariates ;;
          a <~ mean_axis0 x ;;
          reshape a n_covariates 1) ;;
  ret (treated_outcome_all, treated_outcome, treated_covariates).

Definition _process_control_data (outcome_var id_var time_var : string)
    (treatment_period : Z) (treated_unit : string)
    (n_controls periods_all periods_pre_treatment : Z)
    (covariates : list string) : M DataFrame (ndarray * ndarray * ndarray) :=
  control_data_all <-
    (d <- dataset ;;
     lift (ids <~ getitem d id_var ;;
           key <~ series_ne ids treated_unit ;;
           getitem_bool d key)) ;;
  control_outcome_all <-
    lift (y <~ getitem control_data_all outcome_var ;;
          a <~ np_array (s_values y) ;;
          m <~ reshape a n_controls periods_all ;;
          Ok (T m)) ;;
  control_data <-
    (d <- dataset ;;
     lift (t <~ getitem d time_var ;;
           key <~ series_lt t treatment_period ;;
           getitem_bool control_data_all key)) ;;
  control_outcome <-
    lift (y <~ getitem control_data outcome_var ;;
          a <~ np_array (s_values y) ;;
          m <~ reshape a n_controls periods_pre_treatment ;;
          Ok (T m)) ;;
  control_covariates <-
    lift (x <~ getitem_list control_data covariates ;;
          x' <~ getitem_list control_data covariates ;;
          g <~ set_index x ((λ i, i `div` periods_pre_treatment)
                            <$> arange (length (index x'))) ;;
          mu <~ mean_level0 g ;;
          m <~ np_array_frame mu ;;
          Ok (T m)) ;;
  ret (control_outcome_all, control_outcome, control_covariates).

Definition _process_input_data (outcome_var id_var time_var : string)
    (treatment_period : Z) (treated_unit : string) : M DataFrame checked_input :=
  covariates <-
    (d <- dataset ;;
     ret (filter (λ col, col ∉ [outcome_var; id_var; time_var])
                 (fst <$> columns d))) ;;
  periods_all <-
    (d <- dataset ;;
     lift (t <~ getitem d time_var ;; nunique t)) ;;
  periods_pre_treatment <-
    (d <- dataset ;;
     lift (t <~ getitem d time_var ;;
           key <~ series_lt t treatment_period ;;
           pre <~ getitem_bool d key ;;
           t' <~ getitem pre time_var ;;
           nunique t')) ;;
  n_controls <-
    (d <- dataset ;;
     lift (ids <~ getitem d id_var ;;
           n <~ nunique ids ;;
           Ok (n - 1))) ;;
  let n_covariates := Z.of_nat (length covariates) in
  bind (_process_treated_data outcome_var id_var time_var treatment_period
          treated_unit periods_all periods_pre_treatment covariates n_covariates)
    (λ '(treated_outcome_all, treated_outcome, treated_covariates),
  bind (_process_control_data outcome_var id_var time_var treatment_period
          treated_unit n_controls periods_all periods_pre_treatment covariates)
    (λ '(control_outcome_all, control_outcome, control_covariates),
  ret {| outcome_var := outcome_var;
         id_var := id_var;
         time_var := time_var;
         treatment_period := treatment_period;
         treated_unit := treated_unit;
         covariates := covariates;
         periods_all := periods_all;
         periods_pre_treatment := periods_pre_treatment;
         n_controls := n_controls;
         n_covariates := n_covariates;
         treated_outcome_all := treated_outcome_all;
         treated_outcome := treated_outcome;
         treated_covariates := treated_covariates;
         control_outcome_all := control_outcome_all;
         control_outcome := control_outcome;
         control_covariates := control_covariates |})).

(** [Synth.__init__], which passes the checked input to
    [SynthBase.__init__] with [w] and [treatment_effect] left to their
    defaults. *)
Definition Synth_init (outcome_var id_var time_var : string)
    (treatment_period : Z) (treated_unit : string) : M DataFrame SynthBase :=
  checked_input <-
    _process_input_data outcome_var id_var time_var treatment_period treated_unit ;;
  ret {| self_input := checked_input;
         self_w := None;
         self_v := None;
         self_fail_count := 0;
         self_treatment_effect := None |}.

(** A method leaves the caller's dataset as it found it. *)
Definition read_only {A} (m : M DataFrame A) : Prop := ∀ d, fst (m d) = d.


(** ** The de-meaning transform *)

(** The names bound at module level in synth/main.py. *)
Definition module_globals : list string :=
  ["absolute_import"; "division"; "print_function"; "pd"; "np";
   "Plot"; "Inferences"; "SynthBase"; "Synth"].

(** Evaluation of a name that is not local to the function. *)
Definition load_global (name : string) : result unit :=
  if decide (name ∈ module_globals) then Ok () else Err (NameError name).

(** The group of every row, as the mask of the rows that have its key;
    [groupby] leaves out a row whose key is missing. *)
Definition group_masks (key : column) : list (option (list bool)) :=
  match key with
  | StrCol l => (λ x, Some ((λ y, bool_decide (y = x)) <$> l)) <$> l
  | IntCol l => (λ x, Some ((λ y, bool_decide (y = x)) <$> l)) <$> l
  | NumCol l => (λ x, if F_isnan x then None else Some (F_eqb x <$> l)) <$> l
  end.

Definition is_text (c : column) : bool :=
  match c with
  | StrCol _ => true
  | _ => false
  end.

(** A numeric column with the mean of the row's group subtracted, for the
    rows that [groupby] keeps. *)
Definition demean (masks : list (option (list bool))) (v : list F) : list F :=
  omap id (zip_with (λ m x, (λ g, F_sub x (mean (filter_by g v))) <$> m) masks v).

(** [df.groupby(key).apply(lambda x: x - np.mean(x))]. Every group is the
    frame of its rows, key column included. The mean of a group is taken
    column by column: a numeric column gives its mean; the strings of a
    column of strings are added up, and the column enters the means if the
    sum converts to a number, in which case the subtraction of a number
    from a string raises TypeError. Otherwise the subtraction aligns the
    columns of the group with the labels of the means: columns of strings
    come out as missing values and, when there are columns of both kinds,
    the labels come out sorted. The groups are put together in the order
    of the rows of the frame. A frame without a group comes out with its
    columns and no row. *)
Definition groupby_demean (df : DataFrame) (key : string) : result DataFrame :=
  k <~ getitem df key ;;
  let masks := group_masks (s_values k) in
  let groups := omap id masks in
  let texts := omap (λ lc, match lc.2 with StrCol l => Some l | _ => None end) (columns df) in
  let numbers := filter (λ lc, ¬ is_text lc.2) (columns df) in
  if decide (groups = []) then
    Ok {| index := []; columns := (λ '(l, c), (l, column_filter [] c)) <$> columns df |}
  else if existsb (λ g, existsb (λ l, numeric_text (String.concat "" (filter_by g l))) texts)
                  groups
  then Err TypeError
  else
    let cols := (λ '(l, c), (l, NumCol match c with
                                       | StrCol _ => (λ _, F_nan) <$> groups
                                       | IntCol v => demean masks (F_of_Z <$> v)
                                       | NumCol v => demean masks v
                                       end)) <$> columns df in
    Ok {| index := omap id (zip_with (λ m i, (λ _, i) <$> m) masks (index df));
          columns := if decide (texts = [] ∨ numbers = []) then cols
                     else merge_sort (λ a b, String.leb a.1 b.1) cols |}.

(** [df.drop(columns=[label])] *)
Definition drop_columns (df : DataFrame) (label : string) : result DataFrame :=
  if decide (label ∈ fst <$> columns df)
  then Ok {| index := index df;
             columns := filter (λ lc, fst lc ≠ label) (columns df) |}
  else Err (KeyError (String.append (py_list_repr [label]) " not found in axis")).

(** [Synth.transform_data]. Its second statement evaluates the name
    [data], which is neither a local of the method nor bound at module
    level; the objects that are bound at module level are modules, classes
    and future features, none of which can be indexed by a list of
    labels. *)
Definition transform_data (self : SynthBase) : M DataFrame DataFrame :=
  mean_subtract_cols <-
    (d <- dataset ;;
     lift (g <~ groupby_demean d (id_var (self_input self)) ;;
           drop_columns g (time_var (self_input self)))) ;;
  data <- lift (load_global "data") ;;
  lift (Err TypeError).

(** ** Rectangular panels

    A rectangular panel sorted by unit then time is described by its units,
    its periods and the value of every column at every unit and period:
    the rows enumerate the units in order and, within a unit, the periods
    in order. *)

Record Panel := {
  p_index : list Z;
  p_units : list string;
  p_times : list Z;
  p_columns : list string;
  p_value : string → string → Z → F
}.

Definition panel_column (P : Panel) (id_var time_var c : string) : column :=
  if decide (c = id_var) then StrCol (cells (p_units P) (p_times P) (λ u _, u))
  else if decide (c = time_var) then IntCol (cells (p_units P) (p_times P) (λ _ t, t))
  else NumCol (cells (p_units P) (p_times P) (p_value P c)).

Definition panel_frame (P : Panel) (id_var time_var : string) : DataFrame :=
  {| index := p_index P;
     columns := (λ c, (c, panel_column P id_var time_var c)) <$> p_columns P |}.

Record wf_panel (P : Panel) (outcome_var id_var time_var : string) : Prop := {
  wf_index_nodup : NoDup (p_index P);
  wf_index_length : length (p_index P) = (length (p_units P) * length (p_times P))%nat;
  wf_units_nodup : NoDup (p_units P);
  wf_times_sorted : StronglySorted Z.lt (p_times P);
  wf_columns_nodup : NoDup (p_columns P);
  wf_id_column : id_var ∈ p_columns P;
  wf_time_column : time_var ∈ p_columns P;
  wf_outcome_column : outcome_var ∈ p_columns P;
  wf_outcome_id : outcome_var ≠ id_var;
  wf_outcome_time : outcome_var ≠ time_var;
  wf_id_time : id_var ≠ time_var
}.

(** What ingestion is expected to build from a panel. *)
Definition panel_covariates (P : Panel) (outcome_var id_var time_var : string) : list string :=
  filter (λ c, c ∉ [outcome_var; id_var; time_var]) (p_columns P).

Definition pre_times (P : Panel) (treatment_period : Z) : list Z :=
  filter (λ t, t < treatment_period) (p_times P).

Definition controls (P : Panel) (treated_unit : string) : list string :=
  filter (λ u, u ≠ treated_unit) (p_units P).

Definition panel_store (P : Panel) (outcome_var id_var time_var : string)
    (treatment_period : Z) (treated_unit : string) : checked_input :=
  let covs := panel_covariates P outcome_var id_var time_var in
  let pre := pre_times P treatment_period in
  let ctl := controls P treated_unit in
  let grp := if decide (pre = []) then [] else ctl in
  let v := p_value P in
  {| outcome_var := outcome_var;
     id_var := id_var;
     time_var := time_var;
     treatment_period := treatment_period;
     treated_unit := treated_unit;
     covariates := covs;
     periods_all := Z.of_nat (length (p_times P));
     periods_pre_treatment := Z.of_nat (length pre);
     n_controls := Z.of_nat (length ctl);
     n_covariates := Z.of_nat (length covs);
     treated_outcome_all :=
       {| shape := (length (p_times P), 1%nat);
          rows := (λ t, [v outcome_var treated_unit t]) <$> p_times P |};
     treated_outcome :=
       {| shape := (length pre, 1%nat);
          rows := (λ t, [v outcome_var treated_unit t]) <$> pre |};
     treated_covariates :=
       {| shape := (length covs, 1%nat);
          rows := (λ c, [mean (v c treated_unit <$> pre)]) <$> covs |};
     control_outcome_all :=
       {| shape := (length (p_times P), length ctl);
          rows := (λ t, (λ u, v outcome_var u t) <$> ctl) <$> p_times P |};
     control_outcome :=
       {| shape := (length pre, length ctl);
          rows := (λ t, (λ u, v outcome_var u t) <$> ctl) <$> pre |};
     control_covariates :=
       {| shape := (length covs, length grp);
          rows := (λ c, (λ u, mean (v c u <$> pre)) <$> grp) <$> covs |} |}.

(** ** Frames with the documented dtypes

    The ID column holds the strings [ids], the Time column the integers
    [ts], every other column [c] the numbers [num c]; the row labels are
    distinct, the column labels are distinct and every row has an ID and a
    Time. *)

Record typed_frame (d : DataFrame) (id_var time_var : string)
    (ids : list string) (ts : list Z) (num : string → list F) : Prop := {
  tf_index : NoDup (index d);
  tf_id : assoc id_var (columns d) = Some (StrCol ids);
  tf_time : assoc time_var (columns d) = Some (IntCol ts);
  tf_num : ∀ c, c ∈ fst <$> columns d → c ≠ id_var → c ≠ time_var →
           ∃ col, assoc c (columns d) = Some col ∧ np_array col = Ok (num c);
  tf_id_length : length ids = length (index d);
  tf_time_length : length ts = length (index d);
  tf_labels : NoDup (fst <$> columns d)
}.

(** ** Auxiliary frame operations for the examples *)

(** The numbers held by the column [c] of a frame. *)
Definition column_values (d : DataFrame) (c : string) : list F :=
  match assoc c (columns d) with
  | Some col => match np_array col with Ok v => v | Err _ => [] end
  | None => []
  end.

(** [df.head(n)] *)
Definition df_head (n : nat) (df : DataFrame) : DataFrame :=
  {| index := take n (index df);
     columns := (λ '(l, c), (l, match c with
                                | StrCol v => StrCol (take n v)
                                | IntCol v => IntCol (take n v)
                                | NumCol v => NumCol (take n v)
                                end)) <$> columns df |}.

(** ** Row totals and panel variants for the statements *)

(** The row totals that the reshapes of ingestion require: the dataset
    has a row, the treated unit has [periods_all] rows of which
    [periods_pre_treatment] lie before the treatment period, and the other
    units have [n_controls * periods_all] rows of which
    [n_controls * periods_pre_treatment] lie before the treatment
    period. *)
Definition balanced_totals (ids : list string) (ts : list Z)
    (treatment_period : Z) (treated_unit : string) : Prop :=
  let periods_all := Z.of_nat (length (unique ts)) in
  let periods_pre_treatment :=
    Z.of_nat (length (unique (filter (λ x, x < treatment_period) ts))) in
  let n_controls := Z.of_nat (length (unique ids)) - 1 in
  ids ≠ [] ∧
  Z.of_nat (length (filter (λ u, u = treated_unit) ids)) = periods_all ∧
  Z.of_nat (length (filter (λ it, it.1 = treated_unit ∧ it.2 < treatment_period)
                           (zip ids ts))) = periods_pre_treatment ∧
  Z.of_nat (length (filter (λ u, u ≠ treated_unit) ids)) = n_controls * periods_all ∧
  Z.of_nat (length (filter (λ it, it.1 ≠ treated_unit ∧ it.2 < treatment_period)
                           (zip ids ts))) = n_controls * periods_pre_treatment.


(** The panel with every period moved by [k]. *)
Definition shift_times (P : Panel) (k : Z) : Panel :=
  {| p_index := p_index P;
     p_units := p_units P;
     p_times := (λ t, t + k) <$> p_times P;
     p_columns := p_columns P;
     p_value := λ c u t, p_value P c u (t - k) |}.

End Model.

Arguments ndarray F : clear implicits.
Arguments DataFrame F : clear implicits.
Arguments Panel F : clear implicits.

(** ** An exact instance: rationals with a NaN *)

Module Exact.

Inductive qfloat := QNum (q : Q) | QNaN.

Definition qlift2 (f : Q → Q → Q) (a b : qfloat) : qfloat :=
  match a, b with
  | QNum x, QNum y => QNum (Qred (f x y))
  | _, _ => QNaN
  end.

Definition qdiv (a b : qfloat) : qfloat :=
  match a, b with
  | QNum x, QNum y => if Qeq_bool y 0 then QNaN else QNum (Qred (x / y))
  | _, _ => QNaN
  end.

#[export] Instance qfloat_ops : FloatOps qfloat := {|
  F_zero := QNum 0;
  F_nan := QNaN;
  F_isnan := λ a, match a with QNaN => true | QNum _ => false end;
  F_add := qlift2 Qplus;
  F_sub := qlift2 Qminus;
  F_div := qdiv;
  F_eqb := λ a b, match a, b with
                  | QNum x, QNum y => Qeq_bool x y
                  | _, _ => false
                  end;
  F_of_Z := λ z, QNum (inject_Z z)
|}.

(** A panel of four units observed over eight periods on an outcome and
    two predictors; unit A is treated from period 6 on. *)
Definition demo_value (c u : string) (t : Z) : qfloat :=
  QNum (inject_Z (t * t + Z.of_nat (String.length c) * t + Z.of_nat (String.length u))).

Definition demo : Panel qfloat :=
  {| p_index := arange 32;
     p_units := ["A"; "BB"; "CCC"; "DDDD"];
     p_times := [1; 2; 3; 4; 5; 6; 7; 8];
     p_columns := ["ID"; "Time"; "y"; "x0"; "x11"];
     p_value := demo_value |}.

Definition demo_frame : DataFrame qfloat := panel_frame demo "ID" "Time".

(** The same panel with the last observation of unit DDDD missing. *)
Definition short_frame : DataFrame qfloat := df_head 31 demo_frame.



(** Three units over two periods, where unit B has three rows (period 2
    twice) and unit C a single one. *)
Definition uneven_frame : DataFrame qfloat :=
  {| index := arange 6;
     columns :=
       [("ID", StrCol ["A"; "A"; "B"; "B"; "B"; "C"]);
        ("Time", IntCol [1; 2; 1; 2; 2; 1]);
        ("y", NumCol (QNum <$> [10#1; 11#1; 20#1; 21#1; 22#1; 30#1]));
        ("x", NumCol (QNum <$> [1#1; 2#1; 3#1; 4#1; 5#1; 6#1]))] |}.

(** The demo panel without its predictors. *)
Definition bare : Panel qfloat :=
  {| p_index := arange 32;
     p_units := ["A"; "BB"; "CCC"; "DDDD"];
     p_times := [1; 2; 3; 4; 5; 6; 7; 8];
     p_columns := ["ID"; "Time"; "y"];
     p_value := demo_value |}.

(** Three units observed at both periods, the rows of the two control
    units interleaved. *)
Definition interleaved_frame : DataFrame qfloat :=
  {| index := arange 6;
     columns :=
       [("ID", StrCol ["A"; "A"; "B"; "C"; "B"; "C"]);
        ("Time", IntCol [1; 2; 1; 1; 2; 2]);
        ("y", NumCol (QNum <$> [10#1; 11#1; 20#1; 30#1; 21#1; 31#1]));
        ("x", NumCol (QNum <$> [1#1; 2#1; 3#1; 5#1; 4#1; 6#1]))] |}.

(** The treated unit of the demo panel on its own. *)
Definition solo : Panel qfloat :=
  {| p_index := arange 8;
     p_units := ["A"];
     p_times := [1; 2; 3; 4; 5; 6; 7; 8];
     p_columns := ["ID"; "Time"; "y"; "x0"; "x11"];
     p_value := demo_value |}.


End Exact.

(** * Properties *)

Local Open Scope py_scope.

(** ** Selection by a boolean array *)

Section FilterBy.
Context {A B : Type}.
Implicit Types (l : list A) (mask : list bool).

Lemma filter_by_app mask1 mask2 l1 l2 :
  length mask1 = length l1 →
  filter_by (mask1 ++ mask2) (l1 ++ l2) = filter_by mask1 l1 ++ filter_by mask2 l2.
Proof.
  revert l1. induction mask1 as [|b mask1 IH]; intros [|x l1] Hlen; simplify_eq/=; [done|].
  rewrite IH by done. by destruct b.
Qed.

Lemma filter_by_fmap (f : A → B) mask l :
  filter_by mask (f <$> l) = f <$> filter_by mask l.
Proof.
  revert l. induction mask as [|b mask IH]; intros [|x l]; [done..|].
  rewrite fmap_cons. cbn [filter_by]. rewrite IH. by destruct b.
Qed.

Lemma filter_by_pred (P : A → Prop) `{!∀ x, Decision (P x)} (f : A → B) l :
  filter_by ((λ x, bool_decide (P x)) <$> l) (f <$> l) = f <$> filter P l.
Proof.
  induction l as [|x l IH]; [done|]. rewrite !fmap_cons, filter_cons. cbn [filter_by].
  rewrite IH. case_bool_decide; by case_decide.
Qed.

Lemma filter_by_const (b : bool) (f : A → B) l :
  filter_by ((λ _, b) <$> l) (f <$> l) = if b then f <$> l else [].
Proof.
  induction l as [|x l IH]; [by destruct b|]. rewrite !fmap_cons. cbn [filter_by].
  rewrite IH. by destruct b.
Qed.

Lemma length_filter_by mask l (l' : list B) :
  length l = length l' → length (filter_by mask l) = length (filter_by mask l').
Proof.
  revert l l'. induction mask as [|b mask IH]; intros [|x l] [|y l'] Hlen; simplify_eq/=; [done..|].
  destruct b; simpl; auto.
Qed.

Lemma length_filter_by_le mask l : (length (filter_by mask l) ≤ length l)%nat.
Proof.
  revert l. induction mask as [|b mask IH]; intros [|x l]; simpl; [lia..|].
  specialize (IH l). destruct b; simpl; lia.
Qed.

(** A mask that keeps as many rows as there are keeps every row. *)
Lemma filter_by_all mask l (l' : list B) :
  length mask = length l → length l' = length l →
  length (filter_by mask l) = length l → filter_by mask l' = l'.
Proof.
  revert l l'. induction mask as [|b mask IH]; intros [|x l] [|y l'] Hm Hl Hk; simplify_eq/=; [done|].
  destruct b; simpl in *.
  - f_equal. eapply IH; eauto.
  - pose proof (length_filter_by_le mask l). lia.
Qed.
End FilterBy.

Lemma filter_by_self {A} (P : A → Prop) `{!∀ x, Decision (P x)} (l : list A) :
  filter_by ((λ x, bool_decide (P x)) <$> l) l = filter P l.
Proof.
  rewrite <-(list_fmap_id l) at 2. by rewrite filter_by_pred, list_fmap_id.
Qed.

(** ** Columns in unit-major, time-minor order *)

Section Cells.
Context {U P : Type}.
Implicit Types (us : list U) (ts : list P).

Lemma cells_cons {A} u us ts (f : U → P → A) : cells (u :: us) ts f = (f u <$> ts) ++ cells us ts f.
Proof. done. Qed.

Lemma length_cells {A} us ts (f : U → P → A) : length (cells us ts f) = (length us * length ts)%nat.
Proof.
  induction us as [|u us IH]; [done|].
  rewrite cells_cons, length_app, length_fmap, IH. simpl. lia.
Qed.

Lemma fmap_cells {A B} (g : A → B) us ts (f : U → P → A) :
  g <$> cells us ts f = cells us ts (λ u t, g (f u t)).
Proof.
  induction us as [|u us IH]; [done|].
  rewrite !cells_cons, fmap_app, IH, <-list_fmap_compose. done.
Qed.

Lemma cells_nil_r {A} us (f : U → P → A) : cells us [] f = [].
Proof. induction us as [|u us IH]; [done|]. by rewrite cells_cons, IH. Qed.

Lemma filter_by_cells_units {A} (Q : U → Prop) `{!∀ u, Decision (Q u)} us ts (f : U → P → A) :
  filter_by (cells us ts (λ u _, bool_decide (Q u))) (cells us ts f)
  = cells (filter Q us) ts f.
Proof.
  induction us as [|u us IH]; [done|].
  rewrite !cells_cons, filter_by_app by (by rewrite !length_fmap).
  rewrite IH, filter_by_const, filter_cons.
  case_bool_decide; case_decide; done.
Qed.

Lemma filter_by_cells_times {A} (Q : P → Prop) `{!∀ t, Decision (Q t)} us ts (f : U → P → A) :
  filter_by (cells us ts (λ _ t, bool_decide (Q t))) (cells us ts f)
  = cells us (filter Q ts) f.
Proof.
  induction us as [|u us IH]; [done|].
  rewrite !cells_cons, filter_by_app by (by rewrite !length_fmap).
  by rewrite IH, filter_by_pred.
Qed.

Lemma chunk_cells {A} us ts (f : U → P → A) :
  chunk (length ts) (length us) (cells us ts f) = (λ u, f u <$> ts) <$> us.
Proof.
  induction us as [|u us IH]; [done|].
  rewrite cells_cons. simpl.
  rewrite take_app_length', drop_app_length' by (by rewrite length_fmap).
  by rewrite IH.
Qed.

Lemma chunk_singleton {A} (g : P → A) ts :
  chunk 1 (length ts) (g <$> ts) = (λ t, [g t]) <$> ts.
Proof.
  induction ts as [|t ts IH]; [done|]. simpl. rewrite drop_0. by f_equal.
Qed.

Lemma bind_take_1 {A} us t ts (f : U → P → A) :
  ((λ u, f u <$> t :: ts) <$> us) ≫= take 1 = (λ u, f u t) <$> us.
Proof.
  induction us as [|u us IH]; [done|]. by rewrite !fmap_cons, bind_cons, IH.
Qed.

Lemma transpose_cells {A} us ts (f : U → P → A) :
  transpose (length ts) ((λ u, f u <$> ts) <$> us) = (λ t, (λ u, f u t) <$> us) <$> ts.
Proof.
  induction ts as [|t ts IH]; [done|]. cbn [length transpose].
  rewrite fmap_cons, bind_take_1, <-IH, <-list_fmap_compose. done.
Qed.

End Cells.

(** ** Distinct values *)

Section Unique.
Context {A : Type} `{EqDecision A}.
Implicit Types (l seen : list A).

Lemma unique_acc_app seen l1 l2 :
  unique_acc seen (l1 ++ l2) = unique_acc (unique_acc seen l1) l2.
Proof.
  revert seen. induction l1 as [|x l1 IH]; intros seen; [done|].
  simpl. case_decide; apply IH.
Qed.

Lemma unique_acc_seen seen l : (∀ x, x ∈ l → x ∈ seen) → unique_acc seen l = seen.
Proof.
  induction l as [|x l IH]; intros Hin; [done|]. simpl.
  rewrite decide_True by (apply Hin; left). apply IH. intros y Hy. apply Hin. by right.
Qed.

Lemma unique_acc_fresh seen l : NoDup (seen ++ l) → unique_acc seen l = seen ++ l.
Proof.
  revert seen. induction l as [|x l IH]; intros seen Hnd; [by rewrite app_nil_r|].
  simpl. apply NoDup_app in Hnd as (Hs & Hdisj & Hl).
  rewrite decide_False by (intros Hx; apply (Hdisj x Hx); left).
  rewrite IH, <-app_assoc; [done|].
  rewrite <-app_assoc. apply NoDup_app. split_and!; [done|..|done].
  intros y Hy. by apply Hdisj.
Qed.

Lemma unique_acc_elem_of seen l x : x ∈ unique_acc seen l ↔ x ∈ seen ∨ x ∈ l.
Proof.
  revert seen. induction l as [|y l IH]; intros seen; simpl.
  - rewrite elem_of_nil. tauto.
  - rewrite elem_of_cons. case_decide; rewrite IH.
    + intuition (subst; auto).
    + rewrite elem_of_app, list_elem_of_singleton. tauto.
Qed.

Lemma unique_acc_NoDup seen l : NoDup seen → NoDup (unique_acc seen l).
Proof.
  revert seen. induction l as [|y l IH]; intros seen Hs; simpl; [done|].
  case_decide; apply IH; [done|].
  apply NoDup_app. split_and!; [done| |apply NoDup_singleton].
  intros z Hz ->%list_elem_of_singleton. done.
Qed.

Lemma unique_elem_of l x : x ∈ unique l ↔ x ∈ l.
Proof. unfold unique. rewrite unique_acc_elem_of, elem_of_nil. tauto. Qed.

Lemma unique_NoDup l : NoDup (unique l).
Proof. apply unique_acc_NoDup, NoDup_nil_2. Qed.

End Unique.

(** The number of distinct values is the size of the set of values. *)
Lemma length_unique `{Countable A} (l : list A) : length (unique l) = size (list_to_set (C:=gset A) l).
Proof.
  rewrite <-(size_list_to_set (C:=gset A) (unique l)) by apply unique_NoDup.
  f_equal. apply set_eq. intros x. by rewrite !elem_of_list_to_set, unique_elem_of.
Qed.
Section UniqueCells.
Context {U P : Type} `{EqDecision U} `{EqDecision P}.
Implicit Types (us : list U) (ts : list P).

Lemma unique_acc_units seen us ts :
  ts ≠ [] → NoDup (seen ++ us) →
  unique_acc seen (cells us ts (λ u _, u)) = seen ++ us.
Proof.
  intros Hts. revert seen. induction us as [|u us IH]; intros seen Hnd.
  - by rewrite app_nil_r.
  - rewrite cells_cons, unique_acc_app.
    destruct ts as [|t ts]; [done|]. rewrite fmap_cons. cbn [unique_acc].
    apply NoDup_app in Hnd as (Hs & Hdisj & [Hu Hus]%NoDup_cons).
    rewrite decide_False by (intros Hx; apply (Hdisj u Hx); left).
    rewrite (unique_acc_seen (seen ++ [u]) (_ <$> ts)).
    + rewrite IH, <-app_assoc; [done|]. rewrite <-app_assoc.
      apply NoDup_app. split_and!; [done| |by apply NoDup_cons].
      intros y Hy. by apply Hdisj.
    + intros x (? & -> & _)%list_elem_of_fmap. apply elem_of_app. right. left.
Qed.

Lemma unique_cells_units us ts :
  ts ≠ [] → NoDup us → unique (cells us ts (λ u _, u)) = us.
Proof. intros. by apply (unique_acc_units []). Qed.

Lemma unique_cells_times us ts :
  us ≠ [] → NoDup ts → unique (cells us ts (λ _ t, t)) = ts.
Proof.
  intros Hus Hts. destruct us as [|u us]; [done|].
  unfold unique. rewrite cells_cons, unique_acc_app, list_fmap_id.
  rewrite (unique_acc_fresh [] ts) by done. simpl.
  apply unique_acc_seen. intros x (u' & Hx & _)%list_elem_of_bind.
  by rewrite list_fmap_id in Hx.
Qed.
End UniqueCells.

(** ** Row labels of the unit groups *)

Lemma arange_div (n p : nat) :
  (0 < p)%nat →
  (λ i, i `div` Z.of_nat p) <$> arange (n * p) =
  cells (arange n) (seq 0 p) (λ j _, j).
Proof.
  intros Hp. unfold arange. induction n as [|n IH]; [done|].
  replace (S n * p)%nat with (n * p + p)%nat by lia.
  rewrite seq_app, !fmap_app, IH. clear IH.
  replace (S n) with (n + 1)%nat by lia.
  rewrite seq_app, fmap_app. unfold cells at 2. rewrite bind_app. f_equal.
  simpl. rewrite app_nil_r.
  replace (seq (n * p) p) with (Nat.add (n * p) <$> seq 0 p)
    by (rewrite fmap_add_seq; f_equal; lia).
  rewrite <-!list_fmap_compose.
  apply list_fmap_ext. intros i x Hx%lookup_seq. simpl.
  destruct Hx as [-> Hlt]. simpl.
  replace (Z.of_nat (n * p + i)) with (Z.of_nat i + Z.of_nat n * Z.of_nat p) by lia.
  rewrite Z.div_add by lia. rewrite Z.div_small by lia. lia.
Qed.
(** ** Groups of consecutive rows *)

Section Groups.
Context {J U P1 P2 A : Type} `{EqDecision J}.
Implicit Types (js : list J) (us : list U) (ps : list P1) (ts : list P2).

Lemma filter_by_const_mask (h : P1 → bool) (b : bool) ps (l : list A) :
  (∀ x, h x = b) → length ps = length l →
  filter_by (h <$> ps) l = if b then l else [].
Proof.
  intros Hh. revert l. induction ps as [|t ps IH]; intros [|x l] Hlen; simplify_eq/=;
    [by destruct b|].
  rewrite IH, Hh by done. by destruct b.
Qed.

Lemma filter_by_no_group js us ps ts (f : U → P2 → A) g :
  length ps = length ts → length js = length us → g ∉ js →
  filter_by ((λ i, bool_decide (i = g)) <$> cells js ps (λ j _, j)) (cells us ts f) = [].
Proof.
  intros Hts. revert us. induction js as [|j js IH]; intros [|u us] Hlen Hg; try done.
  rewrite !length_cons in Hlen. apply Nat.succ_inj in Hlen.
  rewrite !cells_cons, fmap_app, <-list_fmap_compose.
  rewrite filter_by_app by (by rewrite !length_fmap).
  rewrite (filter_by_const_mask _ (bool_decide (j = g)) ps) by (by rewrite ?length_fmap).
  rewrite bool_decide_eq_false_2 by (intros ->; apply Hg; left).
  apply IH; [done|]. intros ?. apply Hg. by right.
Qed.

Lemma filter_by_group js us ps ts (f : U → P2 → A) i g u :
  length ps = length ts → length js = length us → NoDup js →
  js !! i = Some g → us !! i = Some u →
  filter_by ((λ i, bool_decide (i = g)) <$> cells js ps (λ j _, j)) (cells us ts f)
  = f u <$> ts.
Proof.
  intros Hts. revert us i.
  induction js as [|j js IH]; intros [|u0 us] i Hlen Hnd Hg Hu; try done.
  rewrite !length_cons in Hlen. apply Nat.succ_inj in Hlen.
  apply NoDup_cons in Hnd as [Hj Hnd].
  rewrite !cells_cons, fmap_app, <-list_fmap_compose.
  rewrite filter_by_app by (by rewrite !length_fmap).
  rewrite (filter_by_const_mask _ (bool_decide (j = g)) ps) by (by rewrite ?length_fmap).
  destruct i as [|i]; simplify_eq/=.
  - rewrite bool_decide_eq_true_2 by done.
    rewrite filter_by_no_group by done. by rewrite app_nil_r.
  - rewrite bool_decide_eq_false_2.
    + simpl. eapply IH; eauto.
    + intros ->. apply Hj. by eapply list_elem_of_lookup_2.
Qed.

Lemma group_means (mu : list A → A) js us ps ts (f : U → P2 → A) :
  length ps = length ts → length js = length us → NoDup js →
  (λ g, mu (filter_by ((λ i, bool_decide (i = g)) <$> cells js ps (λ j _, j))
                      (cells us ts f))) <$> js
  = (λ u, mu (f u <$> ts)) <$> us.
Proof.
  intros Hts Hlen Hnd. apply list_eq. intros i. rewrite !list_lookup_fmap.
  destruct (js !! i) as [g|] eqn:Hg, (us !! i) as [u|] eqn:Hu; simpl.
  - f_equal. f_equal. by eapply filter_by_group.
  - apply lookup_lt_Some in Hg. apply lookup_ge_None in Hu. lia.
  - apply lookup_lt_Some in Hu. apply lookup_ge_None in Hg. lia.
  - done.
Qed.
End Groups.

(** ** Alignment of a boolean key *)

Lemma assoc_zip {K V} `{EqDecision K} (ks : list K) (vs : list V) i k v :
  NoDup ks → ks !! i = Some k → vs !! i = Some v → assoc k (zip ks vs) = Some v.
Proof.
  revert vs i. induction ks as [|k0 ks IH]; intros [|v0 vs] i Hnd Hk Hv; simplify_eq/=.
  apply NoDup_cons in Hnd as [Hk0 Hnd].
  destruct i as [|i]; simplify_eq/=.
  - by rewrite decide_True.
  - rewrite decide_False; [by eapply IH|].
    intros ->. apply Hk0. by eapply list_elem_of_lookup_2.
Qed.

Lemma mapR_assoc_filter_by {V} (tbl : list (Z * V)) (e : exn) idx (m1 : list bool) (vs : list V) :
  length m1 = length idx → length vs = length idx →
  (∀ i k v, idx !! i = Some k → vs !! i = Some v → assoc k tbl = Some v) →
  mapR (λ l, match assoc l tbl with Some b => Ok b | None => Err e end) (filter_by m1 idx)
  = Ok (filter_by m1 vs).
Proof.
  revert m1 vs. induction idx as [|k idx IH]; intros [|b m1] [|v vs] Hm Hv Htbl; simplify_eq/=; [done|].
  assert (mapR (λ l, match assoc l tbl with Some b => Ok b | None => Err e end) (filter_by m1 idx)
          = Ok (filter_by m1 vs)) as IH'.
  { apply IH; [done..|]. intros i k' v' ??. by apply (Htbl (S i)). }
  destruct b; simpl; [|done].
  rewrite (Htbl 0%nat k v) by done. simpl. by rewrite IH'.
Qed.

Lemma check_bool_indexer_subset idx (m1 m2 : list bool) :
  NoDup idx → length m1 = length idx → length m2 = length idx →
  check_bool_indexer (filter_by m1 idx) {| b_index := idx; b_values := m2 |}
  = Ok (filter_by m1 m2).
Proof.
  intros Hnd Hm1 Hm2. unfold check_bool_indexer. simpl. case_decide as Heq.
  - f_equal. symmetry. eapply (filter_by_all m1 idx); [done..|]. by rewrite <-Heq.
  - apply mapR_assoc_filter_by; [done..|]. intros i k v ??. by eapply assoc_zip.
Qed.

Lemma check_bool_indexer_same idx (m : list bool) :
  check_bool_indexer idx {| b_index := idx; b_values := m |} = Ok m.
Proof. unfold check_bool_indexer. simpl. by rewrite decide_True. Qed.
(** ** Operations on frames *)

Section Frames.
Context {F : Type} `{FloatOps F}.
Implicit Types (d : DataFrame F) (c : string).

Lemma assoc_fmap_snd {V W} (g : V → W) c (l : list (string * V)) :
  assoc c ((λ '(k, v), (k, g v)) <$> l) = g <$> assoc c l.
Proof.
  induction l as [|[k v] l IH]; [done|]. rewrite fmap_cons. simpl.
  case_decide; [done|]. apply IH.
Qed.

Lemma assoc_fmap_key {V} (g : string → V) c (l : list string) :
  c ∈ l → assoc c ((λ k, (k, g k)) <$> l) = Some (g c).
Proof.
  induction l as [|k l IH]; intros Hc; [by apply elem_of_nil in Hc|].
  rewrite fmap_cons. simpl. case_decide; [by subst|].
  apply IH. apply elem_of_cons in Hc as [?|?]; done.
Qed.

Lemma fmap_snd_labels {A B} (f : A → B) (l : list (string * A)) :
  ((λ '(k, v), (k, f v)) <$> l).*1 = l.*1.
Proof. rewrite <-list_fmap_compose. apply list_fmap_ext. by intros _ [] _. Qed.

Lemma getitem_ok d c col :
  assoc c (columns d) = Some col →
  getitem d c = Ok {| s_index := index d; s_values := col |}.
Proof. unfold getitem. by intros ->. Qed.

Lemma np_array_filter mask col v :
  np_array col = Ok v → np_array (column_filter mask col) = Ok (filter_by mask v).
Proof.
  destruct col; intros; simplify_eq/=; [|done]. by rewrite filter_by_fmap.
Qed.

Lemma getitem_bool_same d m :
  getitem_bool d {| b_index := index d; b_values := m |}
  = Ok {| index := filter_by m (index d);
          columns := (λ '(l, c), (l, column_filter m c)) <$> columns d |}.
Proof. unfold getitem_bool. by rewrite check_bool_indexer_same. Qed.

Lemma reshape_err (a : list F) (r k : Z) e : reshape a r k = Err e → e = ValueError.
Proof. unfold reshape. repeat case_bool_decide; congruence. Qed.

Lemma reshape_nat (a : list F) (r k : nat) :
  length a = (r * k)%nat →
  reshape a (Z.of_nat r) (Z.of_nat k) = Ok {| shape := (r, k); rows := chunk k r a |}.
Proof.
  intros Hlen. unfold reshape.
  rewrite !bool_decide_eq_false_2 by lia.
  rewrite bool_decide_eq_true_2 by lia. by rewrite !Nat2Z.id.
Qed.

(** The predictor means of a filtered frame. *)
Lemma assoc_elem_of {V} (c : string) (col : V) (cols : list (string * V)) :
  assoc c cols = Some col → c ∈ cols.*1.
Proof.
  induction cols as [|[l x] cols IH]; [done|]. simpl. case_decide.
  - intros _. subst. left.
  - intros Hc. right. by apply IH.
Qed.

(** With distinct labels, the columns that carry a label are the column
    that the lookup of the label gives. *)
Lemma filter_label {V} (c : string) (col : V) (cols : list (string * V)) :
  NoDup cols.*1 → assoc c cols = Some col →
  filter (λ lc, lc.1 = c) cols = [(c, col)].
Proof.
  induction cols as [|[l x] cols IH]; [done|]. simpl.
  intros [Hl Hnd]%NoDup_cons Hc. rewrite filter_cons. simpl.
  case_decide as Hcl.
  - simplify_eq. rewrite decide_True by done. f_equal.
    apply elem_of_nil_inv. intros [l' x'] [Hl' Hin]%list_elem_of_filter.
    simpl in Hl'. subst l'. apply Hl. apply list_elem_of_fmap. by exists (l, x').
  - rewrite decide_False by done. by apply IH.
Qed.

Lemma getitem_list_columns (df : DataFrame F) (vals : string → list F) covs :
  NoDup (columns df).*1 →
  (∀ c, c ∈ covs → ∃ col, assoc c (columns df) = Some col ∧ np_array col = Ok (vals c)) →
  ∃ cols, getitem_list df covs = Ok {| index := index df; columns := cols |} ∧
          Forall2 (λ c lc, lc.1 = c ∧ np_array lc.2 = Ok (vals c)) covs cols.
Proof.
  intros Hnd Hcols. unfold getitem_list. cbv zeta.
  rewrite decide_True.
  2:{ apply elem_of_nil_inv. intros c [Hc Hin]%list_elem_of_filter.
      destruct (Hcols c Hin) as (col & Hcol & _). by apply Hc, assoc_elem_of with col. }
  eexists. split; [done|]. revert Hcols.
  induction covs as [|c covs IH]; intros Hcols; [constructor|].
  destruct (Hcols c) as (col & Hc & Hv); [left|].
  rewrite bind_cons, (filter_label _ _ _ Hnd Hc).
  constructor; [done|]. apply IH. intros; apply Hcols; by right.
Qed.

Lemma mean_axis0_columns idx (vals : string → list F) covs cols :
  Forall2 (λ c lc, lc.1 = c ∧ np_array lc.2 = Ok (vals c)) covs cols →
  mean_axis0 {| index := idx; columns := cols |} = Ok ((λ c, mean (vals c)) <$> covs).
Proof.
  unfold mean_axis0. simpl. induction 1 as [|c [l col] covs cols [_ Hv] _ IH]; [done|].
  simpl in *. by rewrite Hv, IH.
Qed.
End Frames.
(** ** The predictor means of the control units *)

Section LevelMeans.
Context {F : Type} `{FloatOps F}.

Lemma mapR_group_columns (agg : list F → list F) (vals : string → list F) covs cols :
  Forall2 (λ c lc, lc.1 = c ∧ np_array lc.2 = Ok (vals c)) covs cols →
  mapR (λ '(l, c), v <~ np_array c ;; Ok (l, NumCol (agg v))) cols
  = Ok ((λ c, (c, NumCol (agg (vals c)))) <$> covs).
Proof.
  induction 1 as [|c [l col] covs cols [Hl Hv] _ IH]; [done|].
  simpl in *. subst l. by rewrite Hv, IH.
Qed.

Lemma mapR_np_array_columns (w : string → list F) (covs : list string) :
  mapR (λ '(_, c), np_array c) ((λ c, (c, NumCol (w c))) <$> covs) = Ok (w <$> covs).
Proof. induction covs as [|c covs IH]; [done|]. rewrite !fmap_cons. simpl. by rewrite IH. Qed.

Lemma level_means idx (vals : string → list F) covs cols labels :
  Forall2 (λ c lc, lc.1 = c ∧ np_array lc.2 = Ok (vals c)) covs cols →
  length labels = length idx →
  (g <~ set_index {| index := idx; columns := cols |} labels ;;
   mu <~ mean_level0 g ;;
   m <~ np_array_frame mu ;;
   Ok (T m))
  = Ok (T {| shape := (length (unique labels), length covs);
              rows := transpose (length (unique labels))
                ((λ c, (λ g, mean (filter_by ((λ i, bool_decide (i = g)) <$> labels) (vals c)))
                       <$> unique labels) <$> covs) |}).
Proof.
  intros Hcols Hlen. unfold set_index. cbn [index columns].
  rewrite decide_True by done. cbn [rbind]. unfold mean_level0. cbn [index columns].
  rewrite (mapR_group_columns
    (λ v, (λ g, mean (filter_by ((λ i, bool_decide (i = g)) <$> labels) v)) <$> unique labels)
    vals covs) by done.
  cbn [rbind]. unfold np_array_frame. cbn [index columns].
  rewrite (mapR_np_array_columns (λ c, (λ g, mean (filter_by ((λ i, bool_decide (i = g)) <$> labels) (vals c))) <$> unique labels)).
  cbn [rbind]. by rewrite length_fmap.
Qed.
End LevelMeans.

(** ** Ingestion of a frame with the documented dtypes *)

Section Views.
Context {F : Type} `{FloatOps F}.
Context (d : DataFrame F) (yvar ivar tvar : string).
Context (ids : list string) (ts : list Z) (num : string → list F).
Context (Htyped : typed_frame d ivar tvar ids ts num).
Context (Ho : yvar ∈ (columns d).*1).
Context (Hoi : yvar ≠ ivar) (Hot : yvar ≠ tvar).

Lemma treated_view tp tr pa pp covs K :
  (∀ c, c ∈ covs → c ∈ (columns d).*1 ∧ c ≠ ivar ∧ c ≠ tvar) →
  _process_treated_data yvar ivar tvar tp tr pa pp covs K d =
  (d,
   let m1 := (λ x, bool_decide (x = tr)) <$> ids in
   let m2 := filter_by m1 ((λ x, bool_decide (x < tp)) <$> ts) in
   a1 <~ reshape (filter_by m1 (num yvar)) pa 1 ;;
   a2 <~ reshape (filter_by m2 (filter_by m1 (num yvar))) pp 1 ;;
   a3 <~ reshape ((λ c, mean (filter_by m2 (filter_by m1 (num c)))) <$> covs) K 1 ;;
   Ok (a1, a2, a3)).
Proof.
  intros Hcovs. destruct Htyped as [Hnd Hid Htime Hnum Hidlen Htlen Hlab].
  destruct (Hnum yvar) as (ycol & Hy & Hyv); [done..|].
  unfold _process_treated_data, bind, dataset, lift, ret.
  rewrite (getitem_ok _ _ _ Hid). cbn [rbind series_eq s_values s_index].
  rewrite getitem_bool_same. cbn [rbind].
  set (m1 := (λ x, bool_decide (x = tr)) <$> ids).
  set (mt := (λ x, bool_decide (x < tp)) <$> ts).
  erewrite getitem_ok by (cbn [columns]; rewrite assoc_fmap_snd, Hy; done).
  cbn [rbind s_values]. rewrite (np_array_filter _ _ _ Hyv). cbn [rbind].
  destruct (reshape (filter_by m1 (num yvar)) pa 1) as [a1|e]; [|done].
  cbn [rbind].
  rewrite (getitem_ok _ _ _ Htime). cbn [rbind series_lt s_values s_index].
  unfold getitem_bool. cbn [index columns].
  rewrite check_bool_indexer_subset
    by (done || unfold m1, mt; rewrite length_fmap; congruence).
  cbn [rbind]. fold mt. set (m2 := filter_by m1 mt).
  erewrite getitem_ok by (cbn [columns]; rewrite !assoc_fmap_snd, Hy; done).
  cbn [rbind s_values]. rewrite (np_array_filter _ _ _ (np_array_filter _ _ _ Hyv)).
  cbn [rbind].
  destruct (reshape (filter_by m2 (filter_by m1 (num yvar))) pp 1) as [a2|e]; [|done].
  cbn [rbind].
  edestruct (getitem_list_columns
    {| index := filter_by m2 (filter_by m1 (index d));
       columns := (λ '(l, c), (l, column_filter m2 c)) <$>
                  ((λ '(l, c), (l, column_filter m1 c)) <$> columns d) |}
    (λ c, filter_by m2 (filter_by m1 (num c))) covs) as (cols & -> & Hcols).
  { cbn [columns]. by rewrite !fmap_snd_labels. }
  { intros c Hc. destruct (Hcovs c Hc) as (Hin & ? & ?).
    destruct (Hnum c) as (col & Hcol & Hv); [done..|].
    exists (column_filter m2 (column_filter m1 col)). cbn [columns].
    rewrite !assoc_fmap_snd, Hcol. split; [done|].
    by apply np_array_filter, np_array_filter. }
  cbn [rbind index]. rewrite (mean_axis0_columns _ _ _ _ Hcols). cbn [rbind].
  by destruct (reshape _ K 1).
Qed.

Lemma control_view tp tr nc pa pp covs :
  (∀ c, c ∈ covs → c ∈ (columns d).*1 ∧ c ≠ ivar ∧ c ≠ tvar) →
  _process_control_data yvar ivar tvar tp tr nc pa pp covs d =
  (d,
   let m1 := (λ x, bool_decide (x ≠ tr)) <$> ids in
   let m2 := filter_by m1 ((λ x, bool_decide (x < tp)) <$> ts) in
   let labels := (λ i, i `div` pp) <$> arange (length (filter_by m2 (filter_by m1 (index d)))) in
   let groups := unique labels in
   b1 <~ reshape (filter_by m1 (num yvar)) nc pa ;;
   b2 <~ reshape (filter_by m2 (filter_by m1 (num yvar))) nc pp ;;
   Ok (T b1, T b2,
       T {| shape := (length groups, length covs);
            rows := transpose (length groups)
              ((λ c, (λ g, mean (filter_by ((λ i, bool_decide (i = g)) <$> labels)
                                            (filter_by m2 (filter_by m1 (num c)))))
                     <$> groups) <$> covs) |})).
Proof.
  intros Hcovs. destruct Htyped as [Hnd Hid Htime Hnum Hidlen Htlen Hlab].
  destruct (Hnum yvar) as (ycol & Hy & Hyv); [done..|].
  unfold _process_control_data, bind, dataset, lift, ret.
  rewrite (getitem_ok _ _ _ Hid). cbn [rbind series_ne s_values s_index].
  rewrite getitem_bool_same. cbn [rbind].
  set (m1 := (λ x, bool_decide (x ≠ tr)) <$> ids).
  set (mt := (λ x, bool_decide (x < tp)) <$> ts).
  erewrite getitem_ok by (cbn [columns]; rewrite assoc_fmap_snd, Hy; done).
  cbn [rbind s_values]. rewrite (np_array_filter _ _ _ Hyv). cbn [rbind].
  destruct (reshape (filter_by m1 (num yvar)) nc pa) as [b1|e]; [|done].
  cbn [rbind].
  rewrite (getitem_ok _ _ _ Htime). cbn [rbind series_lt s_values s_index].
  unfold getitem_bool. cbn [index columns].
  rewrite check_bool_indexer_subset
    by (done || unfold m1, mt; rewrite length_fmap; congruence).
  cbn [rbind]. fold mt. set (m2 := filter_by m1 mt).
  erewrite getitem_ok by (cbn [columns]; rewrite !assoc_fmap_snd, Hy; done).
  cbn [rbind s_values]. rewrite (np_array_filter _ _ _ (np_array_filter _ _ _ Hyv)).
  cbn [rbind].
  destruct (reshape (filter_by m2 (filter_by m1 (num yvar))) nc pp) as [b2|e]; [|done].
  cbn [rbind].
  edestruct (getitem_list_columns
    {| index := filter_by m2 (filter_by m1 (index d));
       columns := (λ '(l, c), (l, column_filter m2 c)) <$>
                  ((λ '(l, c), (l, column_filter m1 c)) <$> columns d) |}
    (λ c, filter_by m2 (filter_by m1 (num c))) covs) as (cols & -> & Hcols).
  { cbn [columns]. by rewrite !fmap_snd_labels. }
  { intros c Hc. destruct (Hcovs c Hc) as (Hin & ? & ?).
    destruct (Hnum c) as (col & Hcol & Hv); [done..|].
    exists (column_filter m2 (column_filter m1 col)). cbn [columns].
    rewrite !assoc_fmap_snd, Hcol. split; [done|].
    by apply np_array_filter, np_array_filter. }
  cbn [rbind index]. rewrite (level_means _ _ _ _ _ Hcols); [done|].
  unfold arange. by rewrite !length_fmap, length_seq.
Qed.

Lemma covariates_typed c :
  c ∈ filter (λ col, col ∉ [yvar; ivar; tvar]) (columns d).*1 →
  c ∈ (columns d).*1 ∧ c ≠ ivar ∧ c ≠ tvar.
Proof.
  intros [Hc ?]%list_elem_of_filter. split; [done|].
  rewrite !not_elem_of_cons in Hc. tauto.
Qed.

Lemma ingest_view tp tr :
  _process_input_data yvar ivar tvar tp tr d =
  (d,
   let covs := filter (λ col, col ∉ [yvar; ivar; tvar]) (columns d).*1 in
   let pa := Z.of_nat (length (unique ts)) in
   let pp := Z.of_nat (length (unique (filter (λ x, x < tp) ts))) in
   let nc := Z.of_nat (length (unique ids)) - 1 in
   let K := Z.of_nat (length covs) in
   treated <~ snd (_process_treated_data yvar ivar tvar tp tr pa pp covs K d) ;;
   control <~ snd (_process_control_data yvar ivar tvar tp tr nc pa pp covs d) ;;
   Ok {| outcome_var := yvar; id_var := ivar; time_var := tvar;
         treatment_period := tp; treated_unit := tr; covariates := covs;
         periods_all := pa; periods_pre_treatment := pp;
         n_controls := nc; n_covariates := K;
         treated_outcome_all := treated.1.1; treated_outcome := treated.1.2;
         treated_covariates := treated.2;
         control_outcome_all := control.1.1; control_outcome := control.1.2;
         control_covariates := control.2 |}).
Proof.
  pose proof Htyped as [Hnd Hid Htime Hnum Hidlen Htlen Hlab].
  unfold _process_input_data. unfold bind at 1 2 3 4 5 6 7 8. unfold dataset, lift, ret.
  rewrite (getitem_ok _ _ _ Htime), (getitem_ok _ _ _ Hid).
  cbn [rbind series_lt nunique s_values s_index].
  rewrite getitem_bool_same. cbn [rbind].
  erewrite getitem_ok by (cbn [columns]; rewrite assoc_fmap_snd, Htime; done).
  cbn [rbind nunique s_values column_filter]. rewrite filter_by_self.
  cbv zeta. unfold bind.
  match goal with |- context [_process_treated_data ?a1 ?a2 ?a3 ?a4 ?a5 ?a6 ?a7 ?a8 ?a9 d] =>
    pose proof (treated_view a4 a5 a6 a7 a8 a9 covariates_typed) as Htr;
    destruct (_process_treated_data a1 a2 a3 a4 a5 a6 a7 a8 a9 d) as [d1 [[[a b] c]|e]]
  end; injection Htr as -> _; [|done].
  cbn [snd rbind fst].
  match goal with |- context [_process_control_data ?a1 ?a2 ?a3 ?a4 ?a5 ?a6 ?a7 ?a8 ?a9 d] =>
    pose proof (control_view a4 a5 a6 a7 a8 a9 covariates_typed) as Hct;
    destruct (_process_control_data a1 a2 a3 a4 a5 a6 a7 a8 a9 d) as [d1 [[[a' b'] c']|e]]
  end; injection Hct as -> _; done.
Qed.
End Views.
(** ** Further facts on lists and cells *)

Section ListFacts.
Context {A : Type} `{EqDecision A}.

Lemma filter_eq_singleton (x : A) (l : list A) :
  NoDup l → x ∈ l → filter (λ y, y = x) l = [x].
Proof.
  induction l as [|y l IH]; intros Hnd Hx; [by apply elem_of_nil in Hx|].
  apply NoDup_cons in Hnd as [Hy Hnd]. rewrite filter_cons.
  case_decide as Hyx.
  - subst y. f_equal. clear IH Hx.
    induction l as [|z l IH]; [done|]. rewrite filter_cons.
    apply not_elem_of_cons in Hy as [Hz Hy]. apply NoDup_cons in Hnd as [_ Hnd].
    case_decide; [congruence|]. by apply IH.
  - apply IH; [done|]. apply elem_of_cons in Hx as [?|?]; [congruence|done].
Qed.

Lemma length_filter_ne (x : A) (l : list A) :
  NoDup l → x ∈ l → S (length (filter (λ y, y ≠ x) l)) = length l.
Proof.
  induction l as [|y l IH]; intros Hnd Hx; [by apply elem_of_nil in Hx|].
  apply NoDup_cons in Hnd as [Hy Hnd]. rewrite filter_cons.
  case_decide as Hyx; simpl.
  - f_equal. apply IH; [done|]. apply elem_of_cons in Hx as [?|?]; [congruence|done].
  - subst y. f_equal. clear IH Hx.
    induction l as [|z l IH]; [done|]. rewrite filter_cons.
    apply not_elem_of_cons in Hy as [Hz Hy]. apply NoDup_cons in Hnd as [_ Hnd].
    case_decide; [|congruence]. simpl. f_equal. by apply IH.
Qed.

End ListFacts.

Section CellsFilter.
Context {U P : Type}.

Lemma cells_singleton {A} (u : U) (ts : list P) (f : U → P → A) : cells [u] ts f = f u <$> ts.
Proof. unfold cells. simpl. by rewrite app_nil_r. Qed.

Lemma filter_cells_times (Q : P → Prop) `{!∀ t, Decision (Q t)} (us : list U) (ts : list P) :
  filter Q (cells us ts (λ _ t, t)) = cells us (filter Q ts) (λ _ t, t).
Proof. by rewrite <-filter_by_self, fmap_cells, filter_by_cells_times. Qed.
End CellsFilter.

Lemma NoDup_arange n : NoDup (arange n).
Proof. unfold arange. apply NoDup_fmap_2; [apply _|apply NoDup_seq]. Qed.

Lemma length_arange n : length (arange n) = n.
Proof. unfold arange. by rewrite length_fmap, length_seq. Qed.
(** ** Ingestion of a rectangular panel *)

Lemma reshape_column {F} (a : list F) (r : nat) :
  length a = r →
  reshape a (Z.of_nat r) 1 = Ok {| shape := (r, 1%nat); rows := chunk 1 r a |}.
Proof. intros Hlen. apply (reshape_nat a r 1). lia. Qed.

Section Panels.
Context {F : Type} `{FloatOps F}.
Context (P : Panel F) (yvar ivar tvar : string).
Context (Hwf : wf_panel P yvar ivar tvar).

Abbreviation frame := (panel_frame P ivar tvar).
Abbreviation us := (p_units P).
Abbreviation ts := (p_times P).

Lemma panel_labels : (columns frame).*1 = p_columns P.
Proof.
  unfold panel_frame. cbn [columns]. rewrite <-list_fmap_compose.
  apply list_fmap_id.
Qed.

Lemma panel_times_NoDup : NoDup ts.
Proof.
  pose proof (wf_times_sorted _ _ _ _ Hwf) as Hs.
  induction Hs as [|t l _ IH Hall]; [constructor|].
  apply NoDup_cons. split; [|done].
  intros Hin. rewrite Forall_forall in Hall. specialize (Hall _ Hin). lia.
Qed.

Lemma panel_typed :
  typed_frame frame ivar tvar
    (cells us ts (λ u _, u)) (cells us ts (λ _ t, t)) (λ c, cells us ts (p_value P c)).
Proof.
  destruct Hwf. split.
  - done.
  - unfold panel_frame. cbn [columns]. rewrite assoc_fmap_key by done.
    unfold panel_column. by rewrite decide_True.
  - unfold panel_frame. cbn [columns]. rewrite assoc_fmap_key by done.
    unfold panel_column. rewrite decide_False by done. by rewrite decide_True.
  - intros c Hc Hi Ht. rewrite panel_labels in Hc.
    unfold panel_frame. cbn [columns]. rewrite assoc_fmap_key by done.
    unfold panel_column. rewrite !decide_False by done. by eexists.
  - by rewrite length_cells.
  - by rewrite length_cells.
  - by rewrite panel_labels.
Qed.

Lemma panel_covariates_typed c :
  c ∈ panel_covariates P yvar ivar tvar → c ∈ (columns frame).*1 ∧ c ≠ ivar ∧ c ≠ tvar.
Proof.
  intros Hc. apply covariates_typed with yvar. by rewrite panel_labels.
Qed.

Context (tp : Z) (tr : string) (Htr : tr ∈ us).

Abbreviation pre := (pre_times P tp).
Abbreviation ctl := (controls P tr).
Abbreviation covs := (panel_covariates P yvar ivar tvar).

Lemma treated_rows {A} (f : string → Z → A) :
  filter_by ((λ x, bool_decide (x = tr)) <$> cells us ts (λ u _, u)) (cells us ts f)
  = f tr <$> ts.
Proof.
  rewrite fmap_cells, filter_by_cells_units, filter_eq_singleton, cells_singleton;
    [done|apply Hwf|done].
Qed.

Lemma control_rows {A} (f : string → Z → A) :
  filter_by ((λ x, bool_decide (x ≠ tr)) <$> cells us ts (λ u _, u)) (cells us ts f)
  = cells ctl ts f.
Proof. by rewrite fmap_cells, filter_by_cells_units. Qed.

Lemma treated_pre_rows {A} (f : string → Z → A) :
  filter_by (filter_by ((λ x, bool_decide (x = tr)) <$> cells us ts (λ u _, u))
                       ((λ x, bool_decide (x < tp)) <$> cells us ts (λ _ t, t)))
            (filter_by ((λ x, bool_decide (x = tr)) <$> cells us ts (λ u _, u)) (cells us ts f))
  = f tr <$> pre.
Proof.
  rewrite (fmap_cells _ us ts (λ _ t, t)), !treated_rows.
  rewrite <-(cells_singleton tr ts f), <-(cells_singleton tr ts (λ _ t, bool_decide (t < tp))).
  by rewrite filter_by_cells_times, cells_singleton.
Qed.

Lemma control_pre_rows {A} (f : string → Z → A) :
  filter_by (filter_by ((λ x, bool_decide (x ≠ tr)) <$> cells us ts (λ u _, u))
                       ((λ x, bool_decide (x < tp)) <$> cells us ts (λ _ t, t)))
            (filter_by ((λ x, bool_decide (x ≠ tr)) <$> cells us ts (λ u _, u)) (cells us ts f))
  = cells ctl pre f.
Proof.
  rewrite (fmap_cells _ us ts (λ _ t, t)), !control_rows.
  by rewrite filter_by_cells_times.
Qed.

Lemma treated_panel :
  snd (_process_treated_data yvar ivar tvar tp tr (Z.of_nat (length ts))
         (Z.of_nat (length pre)) covs (Z.of_nat (length covs)) frame)
  = Ok (treated_outcome_all (panel_store P yvar ivar tvar tp tr),
        treated_outcome (panel_store P yvar ivar tvar tp tr),
        treated_covariates (panel_store P yvar ivar tvar tp tr)).
Proof.
  pose proof Hwf as [_ _ _ _ _ _ _ Hy Hyi Hyt _].
  assert (Hyl : yvar ∈ (columns frame).*1) by (by rewrite panel_labels).
  rewrite (treated_view _ _ _ _ _ _ _ panel_typed Hyl Hyi Hyt)
    by apply panel_covariates_typed.
  cbn [snd]. cbv zeta.
  erewrite (list_fmap_ext _ (λ c, mean (p_value P c tr <$> pre)) covs)
    by (intros; by rewrite treated_pre_rows).
  rewrite treated_pre_rows, treated_rows.
  rewrite !reshape_column by (by rewrite !length_fmap).
  cbn [rbind]. by rewrite !chunk_singleton.
Qed.

Lemma length_controls : Z.of_nat (length us) - 1 = Z.of_nat (length ctl).
Proof.
  unfold controls. rewrite <-(length_filter_ne tr us); [lia|apply Hwf|done].
Qed.

(** The labels [arange(len) // periods_pre] of the pre-treatment control
    rows and their groups. *)
Lemma control_labels (idx : list Z) :
  length idx = (length ctl * length pre)%nat →
  (λ i, i `div` Z.of_nat (length pre)) <$> arange (length idx)
  = cells (arange (length ctl)) (seq 0 (length pre)) (λ j _, j).
Proof.
  intros ->. destruct (decide (length pre = 0%nat)) as [Hz|Hnz].
  - rewrite Hz, Nat.mul_0_r. simpl. by rewrite cells_nil_r.
  - apply arange_div. lia.
Qed.

Lemma control_groups :
  unique (cells (arange (length ctl)) (seq 0 (length pre)) (λ j _, j))
  = if decide (pre = []) then [] else arange (length ctl).
Proof.
  case_decide as Hpre.
  - rewrite Hpre. simpl. by rewrite cells_nil_r.
  - apply unique_cells_units; [|apply NoDup_arange].
    destruct pre; [done|]. simpl. done.
Qed.

Lemma control_panel :
  snd (_process_control_data yvar ivar tvar tp tr (Z.of_nat (length us) - 1)
         (Z.of_nat (length ts)) (Z.of_nat (length pre)) covs frame)
  = Ok (control_outcome_all (panel_store P yvar ivar tvar tp tr),
        control_outcome (panel_store P yvar ivar tvar tp tr),
        control_covariates (panel_store P yvar ivar tvar tp tr)).
Proof.
  pose proof Hwf as [_ Hilen _ _ _ _ _ Hy Hyi Hyt _].
  assert (Hyl : yvar ∈ (columns frame).*1) by (by rewrite panel_labels).
  rewrite (control_view _ _ _ _ _ _ _ panel_typed Hyl Hyi Hyt)
    by apply panel_covariates_typed.
  cbn [snd]. cbv zeta.
  assert (length (filter_by
            (filter_by ((λ x, bool_decide (x ≠ tr)) <$> cells us ts (λ u _, u))
                       ((λ x, bool_decide (x < tp)) <$> cells us ts (λ _ t, t)))
            (filter_by ((λ x, bool_decide (x ≠ tr)) <$> cells us ts (λ u _, u)) (index frame)))
          = (length ctl * length pre)%nat) as Hlen.
  { rewrite (length_filter_by _ _
      (filter_by ((λ x, bool_decide (x ≠ tr)) <$> cells us ts (λ u _, u))
                 (cells us ts (λ u _, u)))).
    - by rewrite control_pre_rows, length_cells.
    - apply length_filter_by. by rewrite length_cells. }
  rewrite (control_labels _ Hlen), control_groups.
  set (grp := if decide (pre = []) then [] else ctl).
  assert (length (if decide (pre = []) then [] else arange (length ctl)) = length grp) as ->.
  { unfold grp. case_decide; [done|]. by rewrite length_arange. }
  erewrite (list_fmap_ext _ (λ c, (λ u, mean (p_value P c u <$> pre)) <$> grp) covs).
  2:{ intros _ c _. unfold grp. case_decide; [done|].
      rewrite control_pre_rows. apply group_means.
      - by rewrite length_seq.
      - by rewrite length_arange.
      - apply NoDup_arange. }
  rewrite control_pre_rows, control_rows, length_controls.
  rewrite !reshape_nat by (by rewrite length_cells).
  cbn [rbind]. unfold T. cbn [shape rows fst snd].
  rewrite !chunk_cells, !transpose_cells.
  done.
Qed.

Lemma ingest_panel :
  ts ≠ [] →
  _process_input_data yvar ivar tvar tp tr frame
  = (frame, Ok (panel_store P yvar ivar tvar tp tr)).
Proof.
  intros Hts.
  assert (Hus : us ≠ []) by (intros Hnil; rewrite Hnil in Htr; by apply elem_of_nil in Htr).
  pose proof panel_times_NoDup as Hnd.
  pose proof Hwf as [Hidx Hilen Hund _ _ _ _ Hy Hyi Hyt _].
  assert (Hyl : yvar ∈ (columns frame).*1) by (by rewrite panel_labels).
  rewrite (ingest_view _ _ _ _ _ _ _ panel_typed Hyl Hyi Hyt).
  f_equal. cbv zeta. rewrite panel_labels.
  fold (panel_covariates P yvar ivar tvar).
  rewrite unique_cells_times, unique_cells_units by done.
  rewrite filter_cells_times. fold (pre_times P tp).
  rewrite unique_cells_times by (done || apply NoDup_filter, Hnd).
  rewrite treated_panel. cbn [rbind].
  rewrite control_panel. cbn [rbind fst snd].
  unfold panel_store. cbn. by rewrite length_controls.
Qed.
End Panels.
(** ** The methods only read the dataset *)

Section ReadOnly.
Context {F : Type} `{FloatOps F} `{TextOps}.

Lemma read_only_ret {A} (a : A) : read_only (F:=F) (ret a).
Proof. by intros d. Qed.

Lemma read_only_lift {A} (r : result A) : read_only (F:=F) (lift r).
Proof. by intros d. Qed.

Lemma read_only_dataset : read_only (F:=F) dataset.
Proof. by intros d. Qed.

Lemma read_only_bind {A B} (m : M (DataFrame F) A) (k : A → M (DataFrame F) B) :
  read_only m → (∀ a, read_only (k a)) → read_only (bind m k).
Proof.
  intros Hm Hk d. unfold bind. specialize (Hm d).
  destruct (m d) as [d' [a|e]]; simpl in Hm; subst d'; [apply Hk|done].
Qed.

Ltac read_only :=
  repeat match goal with
  | |- read_only (ret _) => apply read_only_ret
  | |- read_only (lift _) => apply read_only_lift
  | |- read_only dataset => apply read_only_dataset
  | |- read_only (bind _ _) => apply read_only_bind; [|intros ?]
  | |- read_only (match ?x with _ => _ end) => destruct x
  end.

Lemma read_only_treated o i t tp tr pa pp covs K :
  read_only (_process_treated_data (F:=F) o i t tp tr pa pp covs K).
Proof. unfold _process_treated_data. read_only. Qed.

Lemma read_only_control o i t tp tr nc pa pp covs :
  read_only (_process_control_data (F:=F) o i t tp tr nc pa pp covs).
Proof. unfold _process_control_data. read_only. Qed.

Lemma read_only_input o i t tp tr : read_only (_process_input_data (F:=F) o i t tp tr).
Proof.
  unfold _process_input_data. read_only; cbv zeta; read_only.
  - apply read_only_treated.
  - apply read_only_control.
Qed.

Lemma read_only_init o i t tp tr : read_only (Synth_init (F:=F) o i t tp tr).
Proof. unfold Synth_init. read_only. apply read_only_input. Qed.

Lemma read_only_transform self : read_only (transform_data (F:=F) self).
Proof. unfold transform_data. read_only. Qed.
End ReadOnly.
(** ** The dimension scalars *)

Section Dimensions.
Context {F : Type} `{FloatOps F}.

Lemma ingest_scalars yvar ivar tvar tp tr (d : DataFrame F) st :
  snd (_process_input_data yvar ivar tvar tp tr d) = Ok st →
  ∃ ids ts,
    assoc ivar (columns d) = Some (StrCol ids) ∧
    assoc tvar (columns d) = Some (IntCol ts) ∧
    covariates st = filter (λ col, col ∉ [yvar; ivar; tvar]) (columns d).*1 ∧
    periods_all st = Z.of_nat (length (unique ts)) ∧
    periods_pre_treatment st = Z.of_nat (length (unique (filter (λ x, x < tp) ts))) ∧
    n_controls st = Z.of_nat (length (unique ids)) - 1 ∧
    n_covariates st = Z.of_nat (length (covariates st)).
Proof.
  unfold _process_input_data. unfold bind at 1 2 3 4 5 6 7 8. unfold dataset, lift, ret.
  unfold getitem.
  destruct (assoc tvar (columns d)) as [tcol|] eqn:Ht; [|done].
  cbn [rbind]. unfold nunique at 1. cbn [s_values].
  destruct tcol as [l|ts|l]; [done| |done].
  cbn [series_lt s_values s_index rbind].
  rewrite getitem_bool_same. cbn [rbind columns index].
  rewrite assoc_fmap_snd, Ht. cbn [fmap option_fmap option_map column_filter rbind nunique s_values].
  rewrite filter_by_self.
  destruct (assoc ivar (columns d)) as [icol|] eqn:Hi; [|done].
  destruct icol as [ids|l|l]; cbn [rbind nunique s_values]; [| |done].
  - unfold bind.
    destruct (_process_treated_data _ _ _ _ _ _ _ _ _ d) as [d1 [[[a b] c]|e]]; [|done].
    destruct (_process_control_data _ _ _ _ _ _ _ _ _ d1) as [d2 [[[a' b'] c']|e]]; [|done].
    cbn [snd]. intros [= <-]. by exists ids, ts.
  - unfold bind at 1. unfold _process_treated_data.
    unfold bind, dataset, lift. unfold getitem. rewrite Hi. done.
Qed.
End Dimensions.

(** ** Failures of reshape *)

Section Reshape.
Context {F : Type}.

Lemma reshape_mismatch (a : list F) (r k : Z) :
  0 ≤ r → 0 ≤ k → Z.of_nat (length a) ≠ r * k → reshape a r k = Err ValueError.
Proof.
  intros Hr Hk Hne. unfold reshape.
  rewrite !bool_decide_eq_false_2 by lia. done.
Qed.

Lemma reshape_unknown_zero (a : list F) (r : Z) :
  r < 0 → reshape a r 0 = Err ValueError.
Proof.
  intros Hr. unfold reshape.
  rewrite bool_decide_eq_true_2 by lia.
  rewrite bool_decide_eq_false_2 by lia.
  rewrite bool_decide_eq_true_2 by (by left). done.
Qed.
End Reshape.

Lemma unique_nil_inv {A} `{EqDecision A} (l : list A) : length (unique l) = 0%nat → l = [].
Proof.
  intros Hlen%nil_length_inv. apply elem_of_nil_inv. intros x Hx.
  apply unique_elem_of in Hx. rewrite Hlen in Hx. by apply elem_of_nil in Hx.
Qed.

(** ** Numbers of selected rows *)

Lemma length_filter_by_pred {A B} (P : A → Prop) `{!∀ x, Decision (P x)} (l : list A) (v : list B) :
  length v = length l →
  length (filter_by ((λ x, bool_decide (P x)) <$> l) v) = length (filter P l).
Proof.
  intros Hlen. rewrite (length_filter_by _ _ l) by done. by rewrite filter_by_self.
Qed.

Lemma length_filter_by_both {A B C} (P : A → Prop) (Q : B → Prop)
    `{!∀ x, Decision (P x)} `{!∀ y, Decision (Q y)} (l : list A) (k : list B) (v : list C) :
  length k = length l → length v = length l →
  length (filter_by (filter_by ((λ x, bool_decide (P x)) <$> l) ((λ y, bool_decide (Q y)) <$> k))
                    (filter_by ((λ x, bool_decide (P x)) <$> l) v))
  = length (filter (λ xy, P xy.1 ∧ Q xy.2) (zip l k)).
Proof.
  revert k v. induction l as [|x l IH]; intros [|y k] [|z v] Hk Hv; simplify_eq/=; [done|].
  rewrite filter_cons. cbn [fst snd].
  destruct (decide (P x)) as [HP|HP].
  - rewrite bool_decide_eq_true_2 by done. cbn [filter_by].
    destruct (decide (Q y)) as [HQ|HQ].
    + rewrite bool_decide_eq_true_2, decide_True by done. simpl. f_equal. by apply IH.
    + rewrite bool_decide_eq_false_2, decide_False by tauto. by apply IH.
  - rewrite bool_decide_eq_false_2, decide_False by tauto. by apply IH.
Qed.
(** ** Ingestion of frames that are not rectangular *)

Section Failures.
Context {F : Type} `{FloatOps F}.
Context (d : DataFrame F) (yvar ivar tvar : string).
Context (ids : list string) (ts : list Z) (num : string → list F).
Context (Htyped : typed_frame d ivar tvar ids ts num).
Context (Ho : yvar ∈ (columns d).*1).
Context (Hoi : yvar ≠ ivar) (Hot : yvar ≠ tvar).
Context (Hylen : length (num yvar) = length (index d)).

Lemma treated_errors tp tr pa pp covs K e :
  (∀ c, c ∈ covs → c ∈ (columns d).*1 ∧ c ≠ ivar ∧ c ≠ tvar) →
  snd (_process_treated_data yvar ivar tvar tp tr pa pp covs K d) = Err e →
  e = ValueError.
Proof.
  intros Hcovs. rewrite (treated_view _ _ _ _ _ _ _ Htyped Ho Hoi Hot) by done.
  cbn [snd]. cbv zeta.
  repeat match goal with
         | |- context [reshape ?a ?r ?c] =>
           let E := fresh in destruct (reshape a r c) eqn:E; cbn [rbind];
           [|apply reshape_err in E; congruence]
         end.
  done.
Qed.

Lemma empty_frame_raises tp tr :
  ids = [] → snd (_process_input_data yvar ivar tvar tp tr d) = Err ValueError.
Proof.
  intros Hids. pose proof Htyped as [_ _ _ _ Hidlen Htlen Hlab].
  assert (ts = []) as Hts by (apply nil_length_inv; rewrite Hids in Hidlen; simpl in *; congruence).
  rewrite (ingest_view _ _ _ _ _ _ _ Htyped Ho Hoi Hot). cbn [snd]. cbv zeta.
  destruct (snd (_process_treated_data _ _ _ _ _ _ _ _ _ d)) as [tr3|e] eqn:Htr;
    cbn [rbind].
  - rewrite (control_view _ _ _ _ _ _ _ Htyped Ho Hoi Hot) by apply covariates_typed.
    cbn [snd]. cbv zeta. rewrite Hids, Hts.
    cbn [fmap list_fmap filter_by unique unique_acc length].
    by rewrite reshape_unknown_zero.
  - f_equal. eapply treated_errors; [|done]. apply covariates_typed.
Qed.

(** Ingestion raises when the number of rows of the treated unit is not
    the number of periods. *)
Lemma treated_rows_raise tp tr :
  length (filter (λ u, u = tr) ids) ≠ length (unique ts) →
  snd (_process_input_data yvar ivar tvar tp tr d) = Err ValueError.
Proof.
  intros Hne. pose proof Htyped as [_ _ _ _ Hidlen Htlen Hlab].
  rewrite (ingest_view _ _ _ _ _ _ _ Htyped Ho Hoi Hot). cbn [snd]. cbv zeta.
  rewrite (treated_view _ _ _ _ _ _ _ Htyped Ho Hoi Hot) by apply covariates_typed.
  cbn [snd]. cbv zeta.
  rewrite reshape_mismatch; [done|lia..|].
  rewrite length_filter_by_pred by congruence. lia.
Qed.

Lemma absent_treated_raises tp tr :
  tr ∉ ids → snd (_process_input_data yvar ivar tvar tp tr d) = Err ValueError.
Proof.
  intros Htr. destruct (decide (ids = [])) as [Hids|Hids]; [by apply empty_frame_raises|].
  apply treated_rows_raise.
  assert (filter (λ u, u = tr) ids = []) as ->.
  { apply elem_of_nil_inv. intros x [-> Hx]%list_elem_of_filter. done. }
  pose proof Htyped as [_ _ _ _ Hidlen Htlen Hlab].
  intros Hz. symmetry in Hz. apply unique_nil_inv in Hz.
  apply Hids, nil_length_inv. rewrite Hz in Htlen. simpl in *. congruence.
Qed.

(** Ingestion raises when the control rows, over all periods or over the
    pre-treatment periods, are not as many as [n_controls] units times
    the number of periods. *)
Lemma control_rows_raise tp tr :
  Z.of_nat (length (filter (λ u, u ≠ tr) ids))
    ≠ (Z.of_nat (length (unique ids)) - 1) * Z.of_nat (length (unique ts))
  ∨ Z.of_nat (length (filter (λ it, it.1 ≠ tr ∧ it.2 < tp) (zip ids ts)))
    ≠ (Z.of_nat (length (unique ids)) - 1)
      * Z.of_nat (length (unique (filter (λ x, x < tp) ts))) →
  snd (_process_input_data yvar ivar tvar tp tr d) = Err ValueError.
Proof.
  intros Hne. destruct (decide (ids = [])) as [Hids|Hids]; [by apply empty_frame_raises|].
  pose proof Htyped as [_ _ _ _ Hidlen Htlen Hlab].
  assert (0 ≤ Z.of_nat (length (unique ids)) - 1) as Hnc.
  { destruct (length (unique ids)) eqn:Hz; [|lia]. by apply unique_nil_inv in Hz. }
  rewrite (ingest_view _ _ _ _ _ _ _ Htyped Ho Hoi Hot). cbn [snd]. cbv zeta.
  destruct (snd (_process_treated_data _ _ _ _ _ _ _ _ _ d)) as [tr3|e] eqn:Htr;
    cbn [rbind].
  2:{ f_equal. eapply treated_errors; [|done]. apply covariates_typed. }
  rewrite (control_view _ _ _ _ _ _ _ Htyped Ho Hoi Hot) by apply covariates_typed.
  cbn [snd]. cbv zeta.
  destruct Hne as [Hne|Hne].
  - rewrite reshape_mismatch; [done|lia..|].
    rewrite length_filter_by_pred by congruence. done.
  - match goal with
    | |- context [reshape ?a ?r ?c] =>
      let E := fresh in destruct (reshape a r c) eqn:E; cbn [rbind];
      [|apply reshape_err in E; congruence]
    end.
    rewrite reshape_mismatch; [done|lia..|].
    rewrite length_filter_by_both by congruence. done.
Qed.
End Failures.

(** ** Units observed at every period *)

Section Counting.
Context {A : Type} `{EqDecision A}.
Implicit Types (l us : list A).

Lemma length_filter_or (P Q : A → Prop) `{!∀ x, Decision (P x)} `{!∀ x, Decision (Q x)} l :
  (∀ x, P x → Q x → False) →
  length (filter (λ x, P x ∨ Q x) l) = (length (filter P l) + length (filter Q l))%nat.
Proof.
  intros Hdisj. induction l as [|x l IH]; [done|].
  rewrite !filter_cons.
  destruct (decide (P x)) as [HP|HP], (decide (Q x)) as [HQ|HQ].
  - by destruct (Hdisj x).
  - rewrite decide_True by tauto. simpl. lia.
  - rewrite decide_True by tauto. simpl. lia.
  - rewrite decide_False by tauto. done.
Qed.

(** The rows whose value is among [us] are the rows of each of these
    values. *)
Lemma length_filter_by_value (P : A → Prop) `{!∀ x, Decision (P x)} us l :
  NoDup us →
  length (filter (λ x, x ∈ us ∧ P x) l)
  = sum_list ((λ u, length (filter (λ x, x = u) l)) <$> filter P us).
Proof.
  induction us as [|u us IH]; intros Hnd.
  - simpl. induction l as [|x l IHl]; [done|].
    rewrite filter_cons_False; [done|]. intros [Hx _]. by apply elem_of_nil in Hx.
  - apply NoDup_cons in Hnd as [Hu Hnd]. rewrite filter_cons.
    destruct (decide (P u)) as [HP|HP].
    + rewrite fmap_cons. simpl. rewrite <-IH by done.
      rewrite <-length_filter_or by (intros x -> [? _]; done).
      f_equal. apply list_filter_iff. intros x. rewrite elem_of_cons.
      split; [intros [[->|?] ?]; tauto|intros [->|[??]]; tauto].
    + rewrite <-IH by done. f_equal. apply list_filter_iff. intros x.
      rewrite elem_of_cons. split; [intros [[->|?] ?]; tauto|tauto].
Qed.

Lemma sum_list_bounded (b : nat) (ns : list nat) :
  Forall (λ n, n ≤ b)%nat ns → (sum_list ns ≤ length ns * b)%nat.
Proof. induction 1; simpl; lia. Qed.

Lemma sum_list_saturated (b : nat) (ns : list nat) :
  Forall (λ n, n ≤ b)%nat ns → sum_list ns = (length ns * b)%nat → Forall (λ n, n = b) ns.
Proof.
  induction 1 as [|n ns Hn Hns IH]; intros Hsum; [constructor|].
  simpl in Hsum. pose proof (sum_list_bounded b ns Hns).
  constructor; [lia|]. apply IH. lia.
Qed.
End Counting.

Section Distinct.
Context {A B : Type} `{EqDecision A} `{EqDecision B}.

Lemma elem_of_filter_by_zip (u : A) (t : B) (ids : list A) (ts : list B) :
  t ∈ filter_by ((λ x, bool_decide (x = u)) <$> ids) ts → (u, t) ∈ zip ids ts.
Proof.
  revert ts. induction ids as [|x ids IH]; intros [|t' ts] Ht; try by apply elem_of_nil in Ht.
  rewrite fmap_cons in Ht. cbn [filter_by] in Ht. simpl.
  case_bool_decide as Hx.
  - apply elem_of_cons in Ht as [->|Ht]; [subst; left|right; auto].
  - right. auto.
Qed.

Lemma elem_of_filter_by (mask : list bool) (t : B) (ts : list B) :
  t ∈ filter_by mask ts → t ∈ ts.
Proof.
  revert ts. induction mask as [|b mask IH]; intros [|t' ts] Ht; try by apply elem_of_nil in Ht.
  cbn [filter_by] in Ht. destruct b.
  - apply elem_of_cons in Ht as [->|Ht]; [left|right; auto].
  - right. auto.
Qed.

(** The periods of the rows of one unit are distinct when no (unit,
    period) pair is repeated. *)
Lemma NoDup_unit_times (u : A) (ids : list A) (ts : list B) :
  NoDup (zip ids ts) → NoDup (filter_by ((λ x, bool_decide (x = u)) <$> ids) ts).
Proof.
  revert ts. induction ids as [|x ids IH]; intros [|t ts] Hnd; try constructor.
  simpl in Hnd. apply NoDup_cons in Hnd as [Hxt Hnd].
  rewrite fmap_cons. cbn [filter_by]. case_bool_decide as Hx; [|by apply IH].
  apply NoDup_cons. split; [|by apply IH].
  intros Ht%elem_of_filter_by_zip. by subst.
Qed.

Lemma unit_rows_bounded (u : A) (ids : list A) (ts : list B) :
  NoDup (zip ids ts) → length ts = length ids →
  (length (filter (λ x, x = u) ids) ≤ length (unique ts))%nat.
Proof.
  intros Hnd Hlen. rewrite <-(length_filter_by_pred _ ids ts) by done.
  apply submseteq_length, NoDup_submseteq; [by apply NoDup_unit_times|].
  intros t Ht%elem_of_filter_by. by apply unique_elem_of.
Qed.
End Distinct.

Lemma list_filter_iff_elem_of {A} (P Q : A → Prop)
    `{!∀ x, Decision (P x)} `{!∀ x, Decision (Q x)} (l : list A) :
  (∀ x, x ∈ l → P x ↔ Q x) → filter P l = filter Q l.
Proof.
  induction l as [|x l IH]; intros Hiff; [done|].
  rewrite !filter_cons. rewrite IH by (intros y Hy; apply Hiff; by right).
  destruct (decide (P x)) as [HP|HP].
  - rewrite decide_True; [done|]. apply Hiff; [left|done].
  - rewrite decide_False; [done|]. intros HQ. apply HP, Hiff; [left|done].
Qed.

Section Unbalanced.
Context {F : Type} `{FloatOps F}.
Context (d : DataFrame F) (yvar ivar tvar : string).
Context (ids : list string) (ts : list Z) (num : string → list F).
Context (Htyped : typed_frame d ivar tvar ids ts num).
Context (Ho : yvar ∈ (columns d).*1).
Context (Hoi : yvar ≠ ivar) (Hot : yvar ≠ tvar).
Context (Hylen : length (num yvar) = length (index d)).

(** With one row per (unit, period), ingestion raises as soon as one unit
    is not observed at every period. *)
Lemma unbalanced_unit_raises tp tr u :
  NoDup (zip ids ts) → tr ∈ ids → u ∈ ids →
  length (filter (λ x, x = u) ids) ≠ length (unique ts) →
  snd (_process_input_data yvar ivar tvar tp tr d) = Err ValueError.
Proof.
  intros Hnd Htr Hu Hne. pose proof Htyped as [_ _ _ _ Hidlen Htlen Hlab].
  destruct (decide (length (filter (λ x, x = tr) ids) = length (unique ts))) as [Heq|?];
    [|by eapply treated_rows_raise].
  destruct (decide (Z.of_nat (length (filter (λ x, x ≠ tr) ids))
      = (Z.of_nat (length (unique ids)) - 1) * Z.of_nat (length (unique ts)))) as [Htot|?];
    [|eapply control_rows_raise; eauto].
  exfalso. apply Hne. destruct (decide (u = tr)) as [->|Hutr]; [done|].
  set (others := filter (λ v, v ≠ tr) (unique ids)).
  set (count := λ v : string, length (filter (λ x, x = v) ids)).
  assert (length (filter (λ x, x ≠ tr) ids) = sum_list (count <$> others)) as Hsum.
  { unfold others, count. rewrite <-length_filter_by_value by apply unique_NoDup.
    f_equal. apply list_filter_iff_elem_of. intros x Hx. rewrite unique_elem_of. tauto. }
  assert (S (length others) = length (unique ids)) as Hlen.
  { apply length_filter_ne; [apply unique_NoDup|by apply unique_elem_of]. }
  assert (Forall (λ n, n = length (unique ts)) (count <$> others)) as Hall.
  { apply sum_list_saturated.
    - apply Forall_fmap, Forall_forall. intros v _. unfold count. simpl.
      apply unit_rows_bounded; [done|congruence].
    - rewrite length_fmap. nia. }
  rewrite Forall_fmap, Forall_forall in Hall. apply (Hall u).
  apply list_elem_of_filter. split; [done|]. by apply unique_elem_of.
Qed.
End Unbalanced.


(** ** Reshapes that succeed *)

Section ReshapeOk.
Context {F : Type}.

Lemma reshape_Z (a : list F) (r k : Z) :
  0 ≤ r → 0 ≤ k → Z.of_nat (length a) = r * k →
  reshape a r k = Ok {| shape := (Z.to_nat r, Z.to_nat k);
                        rows := chunk (Z.to_nat k) (Z.to_nat r) a |}.
Proof.
  intros Hr Hk Hlen. unfold reshape.
  rewrite !bool_decide_eq_false_2 by lia. by rewrite bool_decide_eq_true_2.
Qed.
End ReshapeOk.

(** ** The outcome of ingestion on a frame with the documented dtypes *)

Section Outcomes.
Context {F : Type} `{FloatOps F}.
Context (d : DataFrame F) (yvar ivar tvar : string).
Context (ids : list string) (ts : list Z) (num : string → list F).
Context (Htyped : typed_frame d ivar tvar ids ts num).
Context (Ho : yvar ∈ (columns d).*1).
Context (Hoi : yvar ≠ ivar) (Hot : yvar ≠ tvar).
Context (Hylen : length (num yvar) = length (index d)).
Context (tp : Z) (tr : string).

Abbreviation pa := (Z.of_nat (length (unique ts))).
Abbreviation pp := (Z.of_nat (length (unique (filter (λ x, x < tp) ts)))).
Abbreviation nc := (Z.of_nat (length (unique ids)) - 1).
Abbreviation covs := (filter (λ col, col ∉ [yvar; ivar; tvar]) (columns d).*1).

Lemma controls_nonnegative : ids ≠ [] → 0 ≤ nc.
Proof.
  intros Hids. destruct (length (unique ids)) eqn:Hz; [|lia].
  by apply unique_nil_inv in Hz.
Qed.

Lemma balanced_accepted :
  balanced_totals ids ts tp tr →
  ∃ st, snd (_process_input_data yvar ivar tvar tp tr d) = Ok st ∧
        periods_all st = pa ∧ periods_pre_treatment st = pp ∧
        n_controls st = nc ∧ n_covariates st = Z.of_nat (length covs) ∧
        0 ≤ n_controls st ∧
        shape (treated_outcome_all st) = (Z.to_nat pa, 1%nat) ∧
        shape (treated_outcome st) = (Z.to_nat pp, 1%nat) ∧
        shape (treated_covariates st) = (length covs, 1%nat) ∧
        shape (control_outcome_all st) = (Z.to_nat pa, Z.to_nat nc) ∧
        shape (control_outcome st) = (Z.to_nat pp, Z.to_nat nc) ∧
        shape (control_covariates st)
          = (length covs, if decide (pp = 0) then 0%nat else Z.to_nat nc) ∧
        (covs = [] →
         rows (treated_covariates st) = [] ∧ rows (control_covariates st) = []).
Proof.
  intros (Hids & H1 & H2 & H3 & H4).
  pose proof Htyped as [_ _ _ _ Hidlen Htlen Hlab].
  pose proof (controls_nonnegative Hids) as Hnc.
  rewrite (ingest_view _ _ _ _ _ _ _ Htyped Ho Hoi Hot). cbn [snd]. cbv zeta.
  rewrite (treated_view _ _ _ _ _ _ _ Htyped Ho Hoi Hot) by apply covariates_typed.
  rewrite (control_view _ _ _ _ _ _ _ Htyped Ho Hoi Hot) by apply covariates_typed.
  cbn [snd]. cbv zeta.
  rewrite (reshape_Z (filter_by ((λ x, bool_decide (x = tr)) <$> ids) (num yvar)) pa 1)
    by (rewrite ?length_filter_by_pred by congruence; lia).
  cbn [rbind].
  rewrite (reshape_Z _ pp 1)
    by (rewrite ?length_filter_by_both by congruence; lia).
  cbn [rbind].
  rewrite reshape_column by (by rewrite length_fmap).
  cbn [rbind].
  rewrite (reshape_Z (filter_by ((λ x, bool_decide (x ≠ tr)) <$> ids) (num yvar)) nc pa)
    by (rewrite ?length_filter_by_pred by congruence; lia).
  cbn [rbind].
  rewrite (reshape_Z _ nc pp)
    by (rewrite ?length_filter_by_both by congruence; lia).
  cbn [rbind].
  eexists. split; [done|]. cbn.
  split_and!; try done.
  2:{ intros ->. done. }
  f_equal.
  set (p := length (unique (filter (λ x, x < tp) ts))) in *.
  assert (length (filter_by
            (filter_by ((λ x, bool_decide (x ≠ tr)) <$> ids) ((λ x, bool_decide (x < tp)) <$> ts))
            (filter_by ((λ x, bool_decide (x ≠ tr)) <$> ids) (index d)))
          = (Z.to_nat nc * p)%nat) as ->.
  { rewrite length_filter_by_both by congruence.
    apply Nat2Z.inj. rewrite Nat2Z.inj_mul, Z2Nat.id by lia. done. }
  case_decide as Hp.
  - assert (p = 0%nat) as -> by lia. by rewrite Nat.mul_0_r.
  - rewrite arange_div by lia.
    rewrite unique_cells_units; [apply length_arange| |apply NoDup_arange].
    destruct p; [lia|done].
Qed.

Lemma treated_pre_rows_raise :
  Z.of_nat (length (filter (λ it, it.1 = tr ∧ it.2 < tp) (zip ids ts))) ≠ pp →
  snd (_process_input_data yvar ivar tvar tp tr d) = Err ValueError.
Proof.
  intros H2. pose proof Htyped as [_ _ _ _ Hidlen Htlen Hlab].
  destruct (decide (Z.of_nat (length (filter (λ u, u = tr) ids)) = pa)) as [H1|H1];
    [|apply (treated_rows_raise _ _ _ _ _ _ _ Htyped Ho Hoi Hot Hylen); lia].
  rewrite (ingest_view _ _ _ _ _ _ _ Htyped Ho Hoi Hot). cbn [snd]. cbv zeta.
  rewrite (treated_view _ _ _ _ _ _ _ Htyped Ho Hoi Hot) by apply covariates_typed.
  cbn [snd]. cbv zeta.
  rewrite (reshape_Z (filter_by ((λ x, bool_decide (x = tr)) <$> ids) (num yvar)) pa 1)
    by (rewrite ?length_filter_by_pred by congruence; lia).
  cbn [rbind].
  rewrite reshape_mismatch; [done|lia..|].
  rewrite length_filter_by_both by congruence. lia.
Qed.

Lemma unbalanced_rejected :
  ¬ balanced_totals ids ts tp tr →
  snd (_process_input_data yvar ivar tvar tp tr d) = Err ValueError.
Proof.
  intros Hnot.
  destruct (decide (ids = [])) as [Hids|Hids];
    [by apply (empty_frame_raises _ _ _ _ _ _ _ Htyped Ho Hoi Hot)|].
  destruct (decide (Z.of_nat (length (filter (λ u, u = tr) ids)) = pa)) as [H1|H1];
    [|apply (treated_rows_raise _ _ _ _ _ _ _ Htyped Ho Hoi Hot Hylen); lia].
  destruct (decide (Z.of_nat (length (filter (λ it, it.1 = tr ∧ it.2 < tp) (zip ids ts))) = pp))
    as [H2|H2]; [|by apply treated_pre_rows_raise].
  apply (control_rows_raise _ _ _ _ _ _ _ Htyped Ho Hoi Hot Hylen).
  destruct (decide (Z.of_nat (length (filter (λ u, u ≠ tr) ids)) = nc * pa)) as [H3|H3];
    [|by left].
  right. intros H4. apply Hnot. by split_and!.
Qed.

Lemma accepted_balanced st :
  snd (_process_input_data yvar ivar tvar tp tr d) = Ok st →
  balanced_totals ids ts tp tr.
Proof.
  intros Hok.
  destruct (decide (ids = [])) as [Hids|Hids].
  { by rewrite (empty_frame_raises _ _ _ _ _ _ _ Htyped Ho Hoi Hot tp tr Hids) in Hok. }
  destruct (decide (Z.of_nat (length (filter (λ u, u = tr) ids)) = pa)) as [H1|H1].
  2:{ rewrite (treated_rows_raise _ _ _ _ _ _ _ Htyped Ho Hoi Hot Hylen) in Hok; [done|lia]. }
  destruct (decide (Z.of_nat (length (filter (λ it, it.1 = tr ∧ it.2 < tp) (zip ids ts))) = pp))
    as [H2|H2]; [|by rewrite treated_pre_rows_raise in Hok].
  destruct (decide (Z.of_nat (length (filter (λ u, u ≠ tr) ids)) = nc * pa)) as [H3|H3].
  2:{ rewrite (control_rows_raise _ _ _ _ _ _ _ Htyped Ho Hoi Hot Hylen) in Hok;
        [done|by left]. }
  destruct (decide (Z.of_nat (length (filter (λ it, it.1 ≠ tr ∧ it.2 < tp) (zip ids ts)))
                    = nc * pp)) as [H4|H4].
  2:{ rewrite (control_rows_raise _ _ _ _ _ _ _ Htyped Ho Hoi Hot Hylen) in Hok;
        [done|by right]. }
  by split_and!.
Qed.

Lemma relabel_typed idx :
  NoDup idx → length idx = length (index d) →
  typed_frame {| index := idx; columns := columns d |} ivar tvar ids ts num.
Proof.
  intros Hnd Hlen. destruct Htyped as [_ Hid Htime Hnum Hidlen Htlen Hlab].
  split; cbn [index columns]; try done; congruence.
Qed.

Lemma relabel_rows idx :
  NoDup idx → length idx = length (index d) →
  snd (_process_input_data yvar ivar tvar tp tr {| index := idx; columns := columns d |})
  = snd (_process_input_data yvar ivar tvar tp tr d).
Proof.
  intros Hnd Hlen.
  pose proof (relabel_typed idx Hnd Hlen) as Ht'.
  assert (Ho' : yvar ∈ (columns {| index := idx; columns := columns d |}).*1) by done.
  rewrite (ingest_view _ _ _ _ _ _ _ Ht' Ho' Hoi Hot).
  rewrite (ingest_view _ _ _ _ _ _ _ Htyped Ho Hoi Hot).
  cbn [snd]. cbv zeta.
  rewrite (treated_view _ _ _ _ _ _ _ Ht' Ho' Hoi Hot) by apply covariates_typed.
  rewrite (treated_view _ _ _ _ _ _ _ Htyped Ho Hoi Hot) by apply covariates_typed.
  rewrite (control_view _ _ _ _ _ _ _ Ht' Ho' Hoi Hot) by apply covariates_typed.
  rewrite (control_view _ _ _ _ _ _ _ Htyped Ho Hoi Hot) by apply covariates_typed.
  cbn [snd index columns]. cbv zeta.
  rewrite (length_filter_by _ (filter_by _ idx)
             (filter_by ((λ x, bool_decide (x ≠ tr)) <$> ids) (index d)))
    by (by apply length_filter_by).
  done.
Qed.
End Outcomes.

(** ** Variants of a panel *)


Lemma StronglySorted_shift (k : Z) (l : list Z) :
  StronglySorted Z.lt l → StronglySorted Z.lt ((λ t, t + k) <$> l).
Proof.
  induction 1 as [|x l Hl IH Hx]; cbn; constructor; [done|].
  apply Forall_fmap. eapply Forall_impl; [apply Hx|]. cbn. lia.
Qed.

Lemma filter_lt_shift (k b : Z) (l : list Z) :
  filter (λ t, t < b + k) ((λ t, t + k) <$> l) = (λ t, t + k) <$> filter (λ t, t < b) l.
Proof.
  induction l as [|x l IH]; [done|]. rewrite fmap_cons, !filter_cons, IH.
  destruct (decide (x < b)); [rewrite decide_True by lia|rewrite decide_False by lia]; done.
Qed.

Section Variants.
Context {F : Type} `{FloatOps F}.
Context (P : Panel F) (yvar ivar tvar : string).
Context (Hwf : wf_panel P yvar ivar tvar).


Lemma shift_times_wf k : wf_panel (shift_times P k) yvar ivar tvar.
Proof.
  destruct Hwf. split; cbn; try done.
  - by rewrite length_fmap.
  - by apply StronglySorted_shift.
Qed.
End Variants.

(** * The claims of the specification *)

Section Claims.
Context {F : Type} `{FloatOps F} `{TextOps}.


(** C2 (amended). On a dataset with the documented column types,
    ingestion fails with the ValueError of reshape when the treated id is
    absent from the id column, when the number of rows of the treated unit
    differs from periods_all, or, with one row per (unit, period), when any
    unit has a number of periods different from periods_all. *)
Theorem malformed_panel_raises (d : DataFrame F) yvar ivar tvar tp tr ids ts num :
  typed_frame d ivar tvar ids ts num →
  yvar ∈ (columns d).*1 → yvar ≠ ivar → yvar ≠ tvar →
  length (num yvar) = length (index d) →
  tr ∉ ids
  ∨ length (filter (λ u, u = tr) ids) ≠ length (unique ts)
  ∨ (NoDup (zip ids ts) ∧
     ∃ u, u ∈ ids ∧ length (filter (λ x, x = u) ids) ≠ length (unique ts)) →
  snd (_process_input_data yvar ivar tvar tp tr d) = Err ValueError.
Proof.
  intros Htyped Ho Hoi Hot Hlen [Htr|[Hne|(Hnd & u & Hu & Hne)]].
  - by eapply absent_treated_raises.
  - by eapply treated_rows_raise.
  - destruct (decide (tr ∈ ids)) as [Htr|Htr].
    + by eapply (unbalanced_unit_raises d yvar ivar tvar ids ts num
                   Htyped Ho Hoi Hot Hlen tp tr u).
    + by eapply absent_treated_raises.
Qed.

(** C3 (amended). On a dataset with the documented column types,
    ingestion fails with the ValueError of reshape when the number of
    control rows differs from n_controls * periods_all, or the number of
    pre-treatment control rows differs from n_controls * periods_pre. *)
Theorem uneven_control_rows_raise (d : DataFrame F) yvar ivar tvar tp tr ids ts num :
  typed_frame d ivar tvar ids ts num →
  yvar ∈ (columns d).*1 → yvar ≠ ivar → yvar ≠ tvar →
  length (num yvar) = length (index d) →
  Z.of_nat (length (filter (λ u, u ≠ tr) ids))
    ≠ (Z.of_nat (length (unique ids)) - 1) * Z.of_nat (length (unique ts))
  ∨ Z.of_nat (length (filter (λ it, it.1 ≠ tr ∧ it.2 < tp) (zip ids ts)))
    ≠ (Z.of_nat (length (unique ids)) - 1)
      * Z.of_nat (length (unique (filter (λ x, x < tp) ts))) →
  snd (_process_input_data yvar ivar tvar tp tr d) = Err ValueError.
Proof. intros. by eapply control_rows_raise. Qed.

(** C4. Whenever ingestion returns, [periods_all] is the number of
    distinct values of the time column, [periods_pre_treatment] the number
    of distinct time values strictly below the treatment period,
    [n_controls] the number of distinct ids minus one, [covariates] the
    column labels other than outcome, id and time in source order,
    [n_covariates] their number, and
    [periods_pre_treatment <= periods_all]. *)
Theorem ingest_dimension_scalars yvar ivar tvar tp tr (d : DataFrame F) st :
  snd (_process_input_data yvar ivar tvar tp tr d) = Ok st →
  ∃ ids ts,
    assoc ivar (columns d) = Some (StrCol ids) ∧
    assoc tvar (columns d) = Some (IntCol ts) ∧
    periods_all st = Z.of_nat (size (list_to_set (C:=gset Z) ts)) ∧
    periods_pre_treatment st
      = Z.of_nat (size (filter (λ x, x < tp) (list_to_set (C:=gset Z) ts))) ∧
    n_controls st = Z.of_nat (size (list_to_set (C:=gset string) ids)) - 1 ∧
    covariates st = filter (λ col, col ∉ [yvar; ivar; tvar]) (columns d).*1 ∧
    n_covariates st = Z.of_nat (length (covariates st)) ∧
    (periods_pre_treatment st ≤ periods_all st)%Z.
Proof.
  intros (ids & ts & Hi & Ht & Hc & Hpa & Hpp & Hnc & HK)%ingest_scalars.
  exists ids, ts. rewrite Hpa, Hpp, Hnc, !length_unique.
  assert (list_to_set (C:=gset Z) (filter (λ x, x < tp) ts)
          = filter (λ x, x < tp) (list_to_set (C:=gset Z) ts)) as Hset.
  { apply set_eq. intros x.
    rewrite elem_of_filter, !elem_of_list_to_set, list_elem_of_filter. done. }
  rewrite Hset. split_and!; try done.
  apply inj_le, subseteq_size. intros x. rewrite elem_of_filter. tauto.
Qed.


(** C6 (code defect). [transform_data] never returns a panel: it raises
    the exception of its first statement when that one fails, and
    otherwise NameError for the name [data], which its second statement
    evaluates and nothing binds. *)
Theorem transform_data_raises (self : SynthBase) (d : DataFrame F) :
  snd (transform_data self d)
  = match g <~ groupby_demean d (id_var (self_input self)) ;;
          drop_columns g (time_var (self_input self)) with
    | Ok _ => Err (NameError "data")
    | Err e => Err e
    end.
Proof.
  unfold transform_data, bind, dataset, lift.
  by destruct (g <~ groupby_demean d _ ;; drop_columns g _).
Qed.

(** C8. Constructing the estimator leaves the caller's dataset as it
    was, whether ingestion returns or raises. *)
Theorem ingestion_leaves_dataset_unchanged yvar ivar tvar tp tr (d : DataFrame F) :
  fst (Synth_init yvar ivar tvar tp tr d) = d.
Proof. apply read_only_init. Qed.

(** C9. Ingesting a second time, from the dataset as the first run left
    it and with the same parameters, gives the same result: the same
    matrices and scalars, or the same exception. *)
Theorem ingestion_idempotent yvar ivar tvar tp tr (d : DataFrame F) :
  let first := _process_input_data yvar ivar tvar tp tr d in
  let second := _process_input_data yvar ivar tvar tp tr (fst first) in
  snd second = snd first ∧ fst second = d.
Proof. cbv zeta. by rewrite !read_only_input. Qed.


End Claims.

(** * Further properties of ingestion and of the constructor *)

Section Further.
Context {F : Type} `{FloatOps F} `{TextOps}.

(** X1. A dataset without the time column makes ingestion raise the
    KeyError of that column, whatever else the dataset holds. *)
Theorem missing_time_column_raises yvar ivar tvar tp tr (d : DataFrame F) :
  assoc tvar (columns d) = None →
  snd (_process_input_data yvar ivar tvar tp tr d) = Err (KeyError tvar).
Proof.
  intros Ht. unfold _process_input_data. unfold bind at 1 2 3 4 5 6 7 8.
  unfold dataset, lift, ret. unfold getitem. by rewrite Ht.
Qed.



(** X4. On a dataset with the documented column types and distinct row
    labels and column labels, ingestion returns exactly when the row
    totals are balanced, with or without covariates. Only totals are
    compared: which unit or period a row belongs to plays no part in
    acceptance. *)
Theorem ingest_returns_iff (d : DataFrame F) yvar ivar tvar tp tr ids ts num :
  typed_frame d ivar tvar ids ts num →
  yvar ∈ (columns d).*1 → yvar ≠ ivar → yvar ≠ tvar →
  length (num yvar) = length (index d) →
  (∃ st, snd (_process_input_data yvar ivar tvar tp tr d) = Ok st)
  ↔ balanced_totals ids ts tp tr.
Proof.
  intros Htyped Ho Hoi Hot Hlen. split.
  - intros [st Hok].
    by apply (accepted_balanced d yvar ivar tvar ids ts num Htyped Ho Hoi Hot Hlen tp tr st).
  - intros Hbal.
    destruct (balanced_accepted d yvar ivar tvar ids ts num Htyped Ho Hoi Hot Hlen
                tp tr Hbal) as (st & Hok & _).
    by exists st.
Qed.

(** X5. On a dataset with the documented column types, distinct row
    labels and column labels, balanced row totals and at least one
    covariate, ingestion returns; the number of controls is not negative;
    the treated matrices have one column and periods_all,
    periods_pre_treatment and n_covariates rows; the control outcome
    matrices have n_controls columns; and the control predictor matrix
    has n_covariates rows and n_controls columns, or no column when no
    period precedes the treatment period. *)
Theorem ingest_typed_shapes (d : DataFrame F) yvar ivar tvar tp tr ids ts num :
  typed_frame d ivar tvar ids ts num →
  yvar ∈ (columns d).*1 → yvar ≠ ivar → yvar ≠ tvar →
  length (num yvar) = length (index d) →
  balanced_totals ids ts tp tr →
  filter (λ col, col ∉ [yvar; ivar; tvar]) (columns d).*1 ≠ [] →
  ∃ st, snd (_process_input_data yvar ivar tvar tp tr d) = Ok st ∧
        0 ≤ n_controls st ∧
        shape (treated_outcome_all st) = (Z.to_nat (periods_all st), 1%nat) ∧
        shape (treated_outcome st) = (Z.to_nat (periods_pre_treatment st), 1%nat) ∧
        shape (treated_covariates st) = (Z.to_nat (n_covariates st), 1%nat) ∧
        shape (control_outcome_all st)
          = (Z.to_nat (periods_all st), Z.to_nat (n_controls st)) ∧
        shape (control_outcome st)
          = (Z.to_nat (periods_pre_treatment st), Z.to_nat (n_controls st)) ∧
        shape (control_covariates st)
          = (Z.to_nat (n_covariates st),
             if decide (periods_pre_treatment st = 0) then 0%nat
             else Z.to_nat (n_controls st)).
Proof.
  intros Htyped Ho Hoi Hot Hlen Hbal Hcovs.
  destruct (balanced_accepted d yvar ivar tvar ids ts num Htyped Ho Hoi Hot Hlen
              tp tr Hbal)
    as (st & Hok & Hpa & Hpp & Hnc & HK & Hpos & H1 & H2 & H3 & H4 & H5 & H6 & _).
  exists st. rewrite Hpa, Hpp, Hnc, HK. rewrite Hnc in Hpos.
  split_and!; first [assumption | rewrite Nat2Z.id; assumption].
Qed.

(** X6. On a dataset with the documented column types, row totals that
    are not balanced make ingestion raise the ValueError of reshape,
    with or without covariates. *)
Theorem unbalanced_totals_raise (d : DataFrame F) yvar ivar tvar tp tr ids ts num :
  typed_frame d ivar tvar ids ts num →
  yvar ∈ (columns d).*1 → yvar ≠ ivar → yvar ≠ tvar →
  length (num yvar) = length (index d) →
  ¬ balanced_totals ids ts tp tr →
  snd (_process_input_data yvar ivar tvar tp tr d) = Err ValueError.
Proof. intros. by eapply unbalanced_rejected. Qed.

(** X7. On a dataset with the documented column types, distinct row
    labels and column labels and balanced row totals that has no column
    besides outcome, id and time, ingestion returns with an empty list
    of covariates and n_covariates zero; the treated predictor matrix
    has shape (0 x 1) and the control predictor matrix has no row. *)
Theorem balanced_without_covariates_returns (d : DataFrame F) yvar ivar tvar tp tr
    ids ts num :
  typed_frame d ivar tvar ids ts num →
  yvar ∈ (columns d).*1 → yvar ≠ ivar → yvar ≠ tvar →
  length (num yvar) = length (index d) →
  balanced_totals ids ts tp tr →
  filter (λ col, col ∉ [yvar; ivar; tvar]) (columns d).*1 = [] →
  ∃ st, snd (_process_input_data yvar ivar tvar tp tr d) = Ok st ∧
        covariates st = [] ∧
        n_covariates st = 0 ∧
        shape (treated_covariates st) = (0%nat, 1%nat) ∧
        rows (treated_covariates st) = [] ∧
        fst (shape (control_covariates st)) = 0%nat ∧
        rows (control_covariates st) = [].
Proof.
  intros Htyped Ho Hoi Hot Hlen Hbal Hcovs.
  destruct (balanced_accepted d yvar ivar tvar ids ts num Htyped Ho Hoi Hot Hlen
              tp tr Hbal)
    as (st & Hok & _ & _ & _ & HK & _ & _ & _ & H3 & _ & _ & H6 & Hrows).
  destruct (Hrows Hcovs) as [Hr1 Hr0].
  destruct (ingest_scalars _ _ _ _ _ _ _ Hok) as (_ & _ & _ & _ & Hc & _).
  exists st. rewrite Hcovs in *. rewrite H3, H6. by split_and!.
Qed.


(** X9. For every rectangular panel sorted by unit then time that holds
    the treated unit and has a covariate and at least one period, all of
    its periods at or after the treatment period, ingestion returns with
    periods_pre_treatment zero: the pre-treatment outcome matrices have
    no row, every treated covariate mean is NaN, and the control
    predictor matrix has no column. *)
Theorem no_pre_treatment_period (P : Panel F) yvar ivar tvar tp tr :
  wf_panel P yvar ivar tvar →
  tr ∈ p_units P →
  p_times P ≠ [] →
  panel_covariates P yvar ivar tvar ≠ [] →
  pre_times P tp = [] →
  ∃ st, snd (_process_input_data yvar ivar tvar tp tr (panel_frame P ivar tvar)) = Ok st ∧
        periods_pre_treatment st = 0 ∧
        treated_outcome st = {| shape := (0%nat, 1%nat); rows := [] |} ∧
        control_outcome st = {| shape := (0%nat, length (controls P tr)); rows := [] |} ∧
        treated_covariates st =
          {| shape := (length (panel_covariates P yvar ivar tvar), 1%nat);
             rows := (λ _, [F_nan]) <$> panel_covariates P yvar ivar tvar |} ∧
        control_covariates st =
          {| shape := (length (panel_covariates P yvar ivar tvar), 0%nat);
             rows := (λ _, []) <$> panel_covariates P yvar ivar tvar |}.
Proof.
  intros Hwf Htr Hts Hcovs Hpre.
  rewrite (ingest_panel P yvar ivar tvar Hwf tp tr Htr Hts).
  eexists. split; [done|]. unfold panel_store. cbn. rewrite Hpre.
  rewrite decide_True by done. done.
Qed.

(** X10. For every rectangular panel sorted by unit then time that
    holds the treated unit and no other, with at least one period and
    one covariate, ingestion returns with n_controls zero and control
    matrices that have no column. *)
Theorem treated_unit_alone (P : Panel F) yvar ivar tvar tp tr :
  wf_panel P yvar ivar tvar →
  p_units P = [tr] →
  p_times P ≠ [] →
  panel_covariates P yvar ivar tvar ≠ [] →
  ∃ st, snd (_process_input_data yvar ivar tvar tp tr (panel_frame P ivar tvar)) = Ok st ∧
        n_controls st = 0 ∧
        control_outcome_all st =
          {| shape := (length (p_times P), 0%nat); rows := (λ _, []) <$> p_times P |} ∧
        control_outcome st =
          {| shape := (length (pre_times P tp), 0%nat);
             rows := (λ _, []) <$> pre_times P tp |} ∧
        control_covariates st =
          {| shape := (length (panel_covariates P yvar ivar tvar), 0%nat);
             rows := (λ _, []) <$> panel_covariates P yvar ivar tvar |}.
Proof.
  intros Hwf Hunits Hts Hcovs.
  assert (tr ∈ p_units P) as Htr by (rewrite Hunits; apply list_elem_of_singleton; done).
  rewrite (ingest_panel P yvar ivar tvar Hwf tp tr Htr Hts).
  eexists. split; [done|]. unfold panel_store. cbn.
  assert (controls P tr = []) as ->.
  { unfold controls. rewrite Hunits. cbn. by rewrite decide_False by (by intros []). }
  cbn. split_and!; try done. by destruct (decide _).
Qed.

(** X11. On a dataset with the documented column types, the row labels
    play no part: with any other distinct labels on the same rows,
    ingestion gives the same matrices and scalars, or the same
    exception. *)
Theorem row_labels_irrelevant (d : DataFrame F) yvar ivar tvar tp tr ids ts num idx :
  typed_frame d ivar tvar ids ts num →
  yvar ∈ (columns d).*1 → yvar ≠ ivar → yvar ≠ tvar →
  NoDup idx → length idx = length (index d) →
  snd (_process_input_data yvar ivar tvar tp tr {| index := idx; columns := columns d |})
  = snd (_process_input_data yvar ivar tvar tp tr d).
Proof. intros. by eapply relabel_rows. Qed.


(** X13. For every rectangular panel sorted by unit then time that holds
    the treated unit and has at least one period and one covariate,
    moving every period and the treatment period by the same amount
    changes none of the six matrices and neither period count: the time
    values are used through their comparison with the treatment period
    and their number only. *)
Theorem time_shift_invariant (P : Panel F) yvar ivar tvar tp tr k :
  wf_panel P yvar ivar tvar →
  tr ∈ p_units P →
  p_times P ≠ [] →
  panel_covariates P yvar ivar tvar ≠ [] →
  ∃ st st',
    snd (_process_input_data yvar ivar tvar tp tr (panel_frame P ivar tvar)) = Ok st ∧
    snd (_process_input_data yvar ivar tvar (tp + k) tr
           (panel_frame (shift_times P k) ivar tvar)) = Ok st' ∧
    periods_all st' = periods_all st ∧
    periods_pre_treatment st' = periods_pre_treatment st ∧
    treated_outcome_all st' = treated_outcome_all st ∧
    treated_outcome st' = treated_outcome st ∧
    treated_covariates st' = treated_covariates st ∧
    control_outcome_all st' = control_outcome_all st ∧
    control_outcome st' = control_outcome st ∧
    control_covariates st' = control_covariates st.
Proof.
  intros Hwf Htr Hts Hcovs.
  rewrite (ingest_panel P yvar ivar tvar Hwf tp tr Htr Hts).
  rewrite (ingest_panel (shift_times P k) yvar ivar tvar
             (shift_times_wf P yvar ivar tvar Hwf k) (tp + k) tr Htr);
    [|cbn; by destruct (p_times P)].
  do 2 eexists. split; [done|]. split; [done|].
  unfold panel_store. cbv zeta.
  change (controls (shift_times P k) tr) with (controls P tr).
  change (panel_covariates (shift_times P k) yvar ivar tvar)
    with (panel_covariates P yvar ivar tvar).
  assert (pre_times (shift_times P k) (tp + k) = (λ t, t + k) <$> pre_times P tp) as ->
    by apply filter_lt_shift.
  cbn.
  assert (∀ c u (l : list Z),
            (λ t, p_value P c u (t - k)) <$> ((λ t, t + k) <$> l) = p_value P c u <$> l) as Hv.
  { intros c u l. rewrite <-list_fmap_compose. apply list_fmap_ext. intros _ t _. cbn.
    by rewrite Z.add_simpl_r. }
  assert (∀ (l : list Z) (us : list string),
            (λ t, (λ u, p_value P yvar u (t - k)) <$> us) <$> ((λ t, t + k) <$> l)
            = (λ t, (λ u, p_value P yvar u t) <$> us) <$> l) as Hm.
  { intros l us. rewrite <-list_fmap_compose. apply list_fmap_ext. intros _ t _. cbn.
    by rewrite Z.add_simpl_r. }
  assert (∀ (l : list Z),
            (λ t, [p_value P yvar tr (t - k)]) <$> ((λ t, t + k) <$> l)
            = (λ t, [p_value P yvar tr t]) <$> l) as Ht.
  { intros l. rewrite <-list_fmap_compose. apply list_fmap_ext. intros _ t _. cbn.
    by rewrite Z.add_simpl_r. }
  rewrite !length_fmap, !Ht, !Hm.
  assert ((if decide ((λ t, t + k) <$> pre_times P tp = []) then [] else controls P tr)
          = (if decide (pre_times P tp = []) then [] else controls P tr)) as ->.
  { destruct (pre_times P tp); done. }
  split_and!; try done; f_equal.
  - apply list_fmap_ext. intros _ c _. by rewrite Hv.
  - apply list_fmap_ext. intros _ c _. apply list_fmap_ext. intros _ u _. by rewrite Hv.
Qed.

(** X15. Building the estimator and then calling [transform_data] leaves
    the caller's dataset as it was: neither method assigns to the dataset
    or modifies it in place. *)
Theorem transform_data_leaves_dataset_unchanged yvar ivar tvar tp tr (d : DataFrame F) :
  fst (bind (Synth_init yvar ivar tvar tp tr) transform_data d) = d.
Proof.
  apply read_only_bind; [apply read_only_init|]. intros self. apply read_only_transform.
Qed.

End Further.

(** * The properties on concrete panels *)

Module Examples.
Import Exact.

Ltac typed_frame_by_computation :=
  split;
  [ compute_done
  | vm_compute; reflexivity
  | vm_compute; reflexivity
  | let c := fresh "c" in let Hc := fresh "Hc" in
    intros c Hc ? ?;
    repeat (apply elem_of_cons in Hc as [->|Hc];
            [try done; eexists; split; vm_compute; reflexivity|]);
    by apply elem_of_nil in Hc
  | vm_compute; reflexivity
  | vm_compute; reflexivity
  | compute_done ].

(** The instance of the specification: three controls, five pre-treatment
    periods out of eight, two predictors. *)
Example ingest_demo_shapes :
  ∃ st, snd (_process_input_data "y" "ID" "Time" 6 "A" demo_frame) = Ok st ∧
        shape (treated_outcome st) = (5, 1)%nat ∧
        shape (control_outcome st) = (5, 3)%nat ∧
        shape (treated_covariates st) = (2, 1)%nat ∧
        shape (control_covariates st) = (2, 3)%nat.
Proof.
  exists (panel_store demo "y" "ID" "Time" 6 "A").
  split; [vm_compute; reflexivity|]. by vm_compute.
Qed.



Lemma malformed_panel_raises_witness :
  ("Z" ∉ cells (p_units demo) (p_times demo) (λ u _, u)) ∧
  snd (_process_input_data "y" "ID" "Time" 6 "Z" demo_frame) = Err ValueError.
Proof.
  split; [compute_done|].
  apply (malformed_panel_raises demo_frame "y" "ID" "Time" 6 "Z"
           (cells (p_units demo) (p_times demo) (λ u _, u))
           (cells (p_units demo) (p_times demo) (λ _ t, t))
           (column_values demo_frame));
    [typed_frame_by_computation | compute_done.. | left; compute_done].
Defined.

(** A treatment period before the first or after the last observed period
    does not make ingestion fail, and neither does a panel without
    predictors. *)
Lemma malformed_panels_accepted :
  (∃ st, snd (_process_input_data "y" "ID" "Time" 9 "A" demo_frame) = Ok st ∧
         periods_pre_treatment st = periods_all st) ∧
  (∃ st, snd (_process_input_data "y" "ID" "Time" 1 "A" demo_frame) = Ok st ∧
         periods_pre_treatment st = 0) ∧
  (∃ st, snd (_process_input_data "y" "ID" "Time" 6 "A" (panel_frame bare "ID" "Time"))
         = Ok st ∧
         covariates st = [] ∧ n_covariates st = 0).
Proof.
  split_and!.
  - exists (panel_store demo "y" "ID" "Time" 9 "A"). split; vm_compute; reflexivity.
  - exists (panel_store demo "y" "ID" "Time" 1 "A"). split; vm_compute; reflexivity.
  - exists (panel_store bare "y" "ID" "Time" 6 "A").
    split; [vm_compute; reflexivity|]. split; vm_compute; reflexivity.
Qed.

(** One control unit with seven observations where the others have
    eight. *)
Lemma uneven_control_rows_raise_witness :
  snd (_process_input_data "y" "ID" "Time" 6 "A" short_frame) = Err ValueError.
Proof.
  apply (uneven_control_rows_raise short_frame "y" "ID" "Time" 6 "A"
           (take 31 (cells (p_units demo) (p_times demo) (λ u _, u)))
           (take 31 (cells (p_units demo) (p_times demo) (λ _ t, t)))
           (column_values short_frame));
    [typed_frame_by_computation | compute_done.. | left; compute_done].
Defined.

(** Unit B has three rows and unit C one: the four control rows are
    reshaped into two columns of two, the second one made of a row of B
    and the row of C. *)
Lemma uneven_groups_reshaped :
  length (filter (λ u, u = "B") ["A"; "A"; "B"; "B"; "B"; "C"]) = 3%nat ∧
  length (filter (λ u, u = "C") ["A"; "A"; "B"; "B"; "B"; "C"]) = 1%nat ∧
  ∃ st, snd (_process_input_data "y" "ID" "Time" 2 "A" uneven_frame) = Ok st ∧
        periods_all st = 2 ∧ n_controls st = 2 ∧
        rows (control_outcome_all st)
          = [[QNum (20#1); QNum (22#1)]; [QNum (21#1); QNum (30#1)]].
Proof.
  do 2 (split; [compute_done|]).
  eexists {| outcome_var := "y" |}. split; [vm_compute; reflexivity|].
  by vm_compute.
Qed.

(** Rows of the control units that are not sorted by unit are reshaped as
    if they were: the first column of the all-period control outcome holds
    the first period of B and of C, not the two periods of B. *)
Example interleaved_rows_reshaped :
  ∃ st, snd (_process_input_data "y" "ID" "Time" 2 "A" interleaved_frame) = Ok st ∧
        rows (control_outcome_all st)
          = [[QNum (20#1); QNum (21#1)]; [QNum (30#1); QNum (31#1)]].
Proof.
  eexists {| outcome_var := "y" |}. split; [vm_compute; reflexivity|].
  by vm_compute.
Qed.

Lemma ingest_dimension_scalars_witness :
  ∃ ids ts,
    assoc "ID" (columns demo_frame) = Some (StrCol ids) ∧
    assoc "Time" (columns demo_frame) = Some (IntCol ts) ∧
    periods_all (panel_store demo "y" "ID" "Time" 6 "A")
      = Z.of_nat (size (list_to_set (C:=gset Z) ts)) ∧
    periods_pre_treatment (panel_store demo "y" "ID" "Time" 6 "A")
      = Z.of_nat (size (filter (λ x, x < 6) (list_to_set (C:=gset Z) ts))) ∧
    n_controls (panel_store demo "y" "ID" "Time" 6 "A")
      = Z.of_nat (size (list_to_set (C:=gset string) ids)) - 1 ∧
    covariates (panel_store demo "y" "ID" "Time" 6 "A")
      = filter (λ col, col ∉ ["y"; "ID"; "Time"]) (columns demo_frame).*1 ∧
    n_covariates (panel_store demo "y" "ID" "Time" 6 "A")
      = Z.of_nat (length (covariates (panel_store demo "y" "ID" "Time" 6 "A"))) ∧
    periods_pre_treatment (panel_store demo "y" "ID" "Time" 6 "A")
      ≤ periods_all (panel_store demo "y" "ID" "Time" 6 "A").
Proof.
  apply (ingest_dimension_scalars "y" "ID" "Time" 6 "A" demo_frame).
  vm_compute. reflexivity.
Defined.




(** The transform of the estimator built from the demo panel, when the
    ids of a unit's rows, added up, are no number. *)
Example transform_demo (T : TextOps) :
  (∀ u, u ∈ p_units demo → numeric_text (String.concat "" (replicate 8 u)) = false) →
  snd (bind (Synth_init "y" "ID" "Time" 6 "A") transform_data demo_frame)
  = Err (NameError "data").
Proof.
  intros Hid. destruct T as [f].
  pose proof (Hid "A" ltac:(compute_done)) as HA.
  pose proof (Hid "BB" ltac:(compute_done)) as HB.
  pose proof (Hid "CCC" ltac:(compute_done)) as HC.
  pose proof (Hid "DDDD" ltac:(compute_done)) as HD.
  vm_compute in HA, HB, HC, HD.
  vm_compute. rewrite HA, HB, HC, HD. reflexivity.
Qed.

(** The malformed inputs of the specification. *)
Example missing_treated_id :
  snd (_process_input_data "y" "ID" "Time" 6 "Z" demo_frame) = Err ValueError.
Proof. vm_compute. reflexivity. Qed.

Example seven_observations :
  snd (_process_input_data "y" "ID" "Time" 6 "A" short_frame) = Err ValueError.
Proof. vm_compute. reflexivity. Qed.
End Examples.

(** * The further properties on concrete panels *)

Module FurtherExamples.
Import Exact.

(** The demo panel asked for a time column that it does not have. *)
Lemma missing_time_column_raises_witness :
  assoc "Year" (columns demo_frame) = None ∧
  snd (_process_input_data "y" "ID" "Year" 6 "A" demo_frame) = Err (KeyError "Year").
Proof.
  split; [vm_compute; reflexivity|].
  apply (missing_time_column_raises "y" "ID" "Year" 6 "A" demo_frame).
  vm_compute. reflexivity.
Defined.



Lemma ingest_returns_iff_witness :
  (∃ st, snd (_process_input_data "y" "ID" "Time" 6 "A" demo_frame) = Ok st)
  ↔ balanced_totals (cells (p_units demo) (p_times demo) (λ u _, u))
                    (cells (p_units demo) (p_times demo) (λ _ t, t)) 6 "A".
Proof.
  apply (ingest_returns_iff demo_frame "y" "ID" "Time" 6 "A"
           (cells (p_units demo) (p_times demo) (λ u _, u))
           (cells (p_units demo) (p_times demo) (λ _ t, t))
           (column_values demo_frame));
    [Examples.typed_frame_by_computation | compute_done..].
Defined.

Lemma ingest_typed_shapes_witness :
  ∃ st, snd (_process_input_data "y" "ID" "Time" 6 "A" demo_frame) = Ok st ∧
        0 ≤ n_controls st ∧
        shape (treated_outcome_all st) = (Z.to_nat (periods_all st), 1%nat) ∧
        shape (treated_outcome st) = (Z.to_nat (periods_pre_treatment st), 1%nat) ∧
        shape (treated_covariates st) = (Z.to_nat (n_covariates st), 1%nat) ∧
        shape (control_outcome_all st)
          = (Z.to_nat (periods_all st), Z.to_nat (n_controls st)) ∧
        shape (control_outcome st)
          = (Z.to_nat (periods_pre_treatment st), Z.to_nat (n_controls st)) ∧
        shape (control_covariates st)
          = (Z.to_nat (n_covariates st),
             if decide (periods_pre_treatment st = 0) then 0%nat
             else Z.to_nat (n_controls st)).
Proof.
  apply (ingest_typed_shapes demo_frame "y" "ID" "Time" 6 "A"
           (cells (p_units demo) (p_times demo) (λ u _, u))
           (cells (p_units demo) (p_times demo) (λ _ t, t))
           (column_values demo_frame));
    [Examples.typed_frame_by_computation | compute_done..
    | unfold balanced_totals; compute_done | vm_compute; discriminate].
Defined.

(** The treated unit has eight rows and the three others twenty-three. *)
Lemma unbalanced_totals_raise_witness :
  ¬ balanced_totals (take 31 (cells (p_units demo) (p_times demo) (λ u _, u)))
                    (take 31 (cells (p_units demo) (p_times demo) (λ _ t, t))) 6 "A" ∧
  snd (_process_input_data "y" "ID" "Time" 6 "A" short_frame) = Err ValueError.
Proof.
  split; [unfold balanced_totals; compute_done|].
  apply (unbalanced_totals_raise short_frame "y" "ID" "Time" 6 "A"
           (take 31 (cells (p_units demo) (p_times demo) (λ u _, u)))
           (take 31 (cells (p_units demo) (p_times demo) (λ _ t, t)))
           (column_values short_frame));
    [Examples.typed_frame_by_computation | compute_done..
    | unfold balanced_totals; compute_done].
Defined.

(** The demo panel without its predictors. *)
Lemma balanced_without_covariates_returns_witness :
  ∃ st, snd (_process_input_data "y" "ID" "Time" 6 "A" (panel_frame bare "ID" "Time"))
        = Ok st ∧
        covariates st = [] ∧
        n_covariates st = 0 ∧
        shape (treated_covariates st) = (0%nat, 1%nat) ∧
        rows (treated_covariates st) = [] ∧
        fst (shape (control_covariates st)) = 0%nat ∧
        rows (control_covariates st) = [].
Proof.
  apply (balanced_without_covariates_returns (panel_frame bare "ID" "Time")
           "y" "ID" "Time" 6 "A"
           (cells (p_units bare) (p_times bare) (λ u _, u))
           (cells (p_units bare) (p_times bare) (λ _ t, t))
           (column_values (panel_frame bare "ID" "Time")));
    [Examples.typed_frame_by_computation | compute_done..
    | unfold balanced_totals; compute_done | vm_compute; reflexivity].
Defined.


(** The demo panel treated at its first period. *)
Lemma no_pre_treatment_period_witness :
  pre_times demo 1 = [] ∧
  ∃ st, snd (_process_input_data "y" "ID" "Time" 1 "A" demo_frame) = Ok st ∧
        periods_pre_treatment st = 0 ∧
        treated_outcome st = {| shape := (0%nat, 1%nat); rows := [] |} ∧
        control_outcome st = {| shape := (0%nat, 3%nat); rows := [] |} ∧
        treated_covariates st =
          {| shape := (2%nat, 1%nat); rows := [[QNaN]; [QNaN]] |} ∧
        control_covariates st = {| shape := (2%nat, 0%nat); rows := [[]; []] |}.
Proof.
  split; [vm_compute; reflexivity|].
  refine (no_pre_treatment_period demo "y" "ID" "Time" 1 "A" _ _ _ _ _);
    [split; compute_done | compute_done | vm_compute; discriminate..
    | vm_compute; reflexivity].
Defined.

Lemma treated_unit_alone_witness :
  ∃ st, snd (_process_input_data "y" "ID" "Time" 6 "A" (panel_frame solo "ID" "Time")) = Ok st ∧
        n_controls st = 0 ∧
        control_outcome_all st =
          {| shape := (8%nat, 0%nat); rows := (λ _, []) <$> [1; 2; 3; 4; 5; 6; 7; 8] |} ∧
        control_outcome st =
          {| shape := (5%nat, 0%nat); rows := (λ _, []) <$> [1; 2; 3; 4; 5] |} ∧
        control_covariates st =
          {| shape := (2%nat, 0%nat); rows := (λ _, []) <$> ["x0"; "x11"] |}.
Proof.
  apply (treated_unit_alone solo "y" "ID" "Time" 6 "A");
    [split; compute_done | reflexivity | vm_compute; discriminate..].
Defined.

(** The demo panel with its rows labelled from 100 on. *)
Lemma row_labels_irrelevant_witness :
  snd (_process_input_data "y" "ID" "Time" 6 "A"
         {| index := (λ i, i + 100) <$> arange 32; columns := columns demo_frame |})
  = snd (_process_input_data "y" "ID" "Time" 6 "A" demo_frame).
Proof.
  apply (row_labels_irrelevant demo_frame "y" "ID" "Time" 6 "A"
           (cells (p_units demo) (p_times demo) (λ u _, u))
           (cells (p_units demo) (p_times demo) (λ _ t, t))
           (column_values demo_frame));
    [Examples.typed_frame_by_computation | compute_done..].
Defined.


(** The demo panel observed from 2001 to 2008 and treated in 2006. *)
Lemma time_shift_invariant_witness :
  ∃ st st',
    snd (_process_input_data "y" "ID" "Time" 6 "A" demo_frame) = Ok st ∧
    snd (_process_input_data "y" "ID" "Time" 2006 "A"
           (panel_frame (shift_times demo 2000) "ID" "Time")) = Ok st' ∧
    periods_all st' = periods_all st ∧
    periods_pre_treatment st' = periods_pre_treatment st ∧
    treated_outcome_all st' = treated_outcome_all st ∧
    treated_outcome st' = treated_outcome st ∧
    treated_covariates st' = treated_covariates st ∧
    control_outcome_all st' = control_outcome_all st ∧
    control_outcome st' = control_outcome st ∧
    control_covariates st' = control_covariates st.
Proof.
  apply (time_shift_invariant demo "y" "ID" "Time" 6 "A" 2000);
    [split; compute_done | compute_done | vm_compute; discriminate..].
Defined.

End FurtherExamples.
